(** * The browser client of the RAG question-answering service

    A shallow embedding of [static/js/api.js] (the [APIClient] class) and of
    the parts of [static/js/app.js] that drive it, with the properties of the
    client's result shape, error extraction, streaming, upload, health
    indicator, character counter and query submission.

    JavaScript strings are sequences of UTF-16 code units, JSON data is an
    inductive type of values, exceptions are explicit ([Outcome]: the host
    throws Error objects, a callback of the caller anything), and the
    effects of the asynchronous functions (calls of the transport, of the
    caller's callbacks, of the page) are threaded through a state-and-error
    monad that also records them in a trace. *)

From Stdlib Require Import List String Ascii NArith ZArith Bool Lia.
From Stdlib Require Import DecimalString Strings.Byte.
From Stdlib Require Import Floats.SpecFloat.
Import ListNotations.

Set Warnings "-register-all".
Local Open Scope string_scope.
Local Open Scope N_scope.
Local Open Scope list_scope.

(** ** JavaScript strings *)

Module JsString.

(** A string value is a finite sequence of 16-bit code units. *)
Definition code_unit := N.
Definition jsstring := list code_unit.

(** A source literal made of ASCII characters. *)
Definition js (s : string) : jsstring :=
  map N_of_ascii (list_ascii_of_string s).

Fixpoint str_eqb (a b : jsstring) : bool :=
  match a, b with
  | [], [] => true
  | x :: a', y :: b' => N.eqb x y && str_eqb a' b'
  | _, _ => false
  end.

(** [s ? true : false] for a string [s]: only the empty string is falsy. *)
Definition nonempty (s : jsstring) : bool :=
  match s with [] => false | _ :: _ => true end.

(** [String.prototype.startsWith] and [String.prototype.includes]. *)
Fixpoint starts_with (needle hay : jsstring) : bool :=
  match needle, hay with
  | [], _ => true
  | n :: needle', h :: hay' => N.eqb n h && starts_with needle' hay'
  | _ :: _, [] => false
  end.

Fixpoint includes (hay needle : jsstring) : bool :=
  starts_with needle hay
  || match hay with
     | [] => false
     | _ :: hay' => includes hay' needle
     end.

(** WhiteSpace and LineTerminator code points of ECMAScript, the
    characters [String.prototype.trim] strips: TAB, LF, VT, FF, CR, SP,
    NBSP, the Unicode space separators, LS, PS and the BOM. *)
Definition white_space : list code_unit :=
  [ 0x9; 0xA; 0xB; 0xC; 0xD; 0x20; 0xA0; 0x1680;
    0x2000; 0x2001; 0x2002; 0x2003; 0x2004; 0x2005; 0x2006; 0x2007;
    0x2008; 0x2009; 0x200A; 0x2028; 0x2029; 0x202F; 0x205F; 0x3000;
    0xFEFF ].

Definition is_white_space (c : code_unit) : bool :=
  existsb (N.eqb c) white_space.

Fixpoint trim_start (s : jsstring) : jsstring :=
  match s with
  | [] => []
  | c :: s' => if is_white_space c then trim_start s' else s
  end.

Definition trim_end (s : jsstring) : jsstring :=
  rev (trim_start (rev s)).

Definition trim (s : jsstring) : jsstring :=
  trim_end (trim_start s).

(** [`${n}`] for a non-negative integer [n]. *)
Definition of_N (n : N) : jsstring :=
  js (NilEmpty.string_of_uint (N.to_uint n)).

End JsString.
Export JsString.

Coercion js : string >-> jsstring.

(** ** JavaScript values *)

(** Numbers are IEEE 754 binary64 floating-point data. *)
Definition number := spec_float.
Definition prec : Z := 53.
Definition emax : Z := 1024.

Definition number_of_N (n : N) : number :=
  binary_normalize prec emax (Z.of_N n) 0 false.

(** The values that travel through the client: what [JSON.parse] and
    [response.json()] produce, plus [undefined], the value of a property
    that an object does not have.  An object is the list of its own
    properties in insertion order. *)
Inductive value : Type :=
| VUndefined
| VNull
| VBool (b : bool)
| VNumber (x : number)
| VString (s : jsstring)
| VArray (items : list value)
| VObject (props : list (jsstring * value)).

(** ToBoolean. *)
Definition truthy (v : value) : bool :=
  match v with
  | VUndefined | VNull => false
  | VBool b => b
  | VNumber (S754_zero _) | VNumber S754_nan => false
  | VNumber _ => true
  | VString s => nonempty s
  | VArray _ | VObject _ => true
  end.

Definition is_null (v : value) : bool :=
  match v with VNull => true | _ => false end.

(** [v === s] for a string literal [s]. *)
Definition strict_eq_string (v : value) (s : jsstring) : bool :=
  match v with
  | VString t => str_eqb t s
  | _ => false
  end.

Fixpoint own_property (props : list (jsstring * value)) (p : jsstring)
  : value :=
  match props with
  | [] => VUndefined
  | (k, v) :: props' => if str_eqb k p then v else own_property props' p
  end.

(** ** Exceptions *)

(** What the host throws and what a promise of the host is rejected with:
    an Error object, of which the client reads only [message]. *)
Record Exn : Type := mkExn { exn_name : jsstring; message : jsstring }.

(** What JavaScript code throws: [throw] takes any value, so a callback
    supplied by the caller may throw an Error object or anything else
    ([throw null], [throw 'no'], [throw { code: 3 }]). *)
Inductive Thrown : Type :=
| ErrorObject (e : Exn)
| Other (v : value).
Coercion ErrorObject : Exn >-> Thrown.

(** A call returns a value or throws; an awaited promise is fulfilled with
    a value or rejected. *)
Inductive Outcome (T A : Type) : Type :=
| Normal (a : A)
| Throw (e : T).
Arguments Normal {T A} a.
(* The expected type reaches the argument of [Throw], also inside a pair:
   an Error object can be written where a thrown value is expected. *)
Arguments Throw {T A} & e.
Arguments pair {A B} & a b.

(** The built-ins of the host and the transport throw Error objects. *)
Abbreviation Completion := (Outcome Exn).

(** ** The transport: requests, responses, upload events *)

Record File : Type := mkFile { file_name : jsstring; file_bytes : list byte }.

(** The body handed to the transport.  [JsonBody v] is the text
    [JSON.stringify(v)]; [FormBody] is a [FormData] with its fields. *)
Inductive RequestBody : Type :=
| NoBody
| JsonBody (v : value)
| FormBody (fields : list (jsstring * File)).

Definition Headers := list (jsstring * jsstring).

(** The [options] argument of [request]: each key may be missing. *)
Record Options : Type := mkOptions {
  opt_method : option jsstring;
  opt_headers : option Headers;
  opt_body : RequestBody
}.

(** The two arguments of a [fetch] call. *)
Record Request : Type := mkRequest {
  req_url : jsstring;
  req_method : option jsstring;
  req_headers : Headers;
  req_body : RequestBody
}.

(** A response body as the reader sees it: the byte chunks that arrive,
    then either end-of-stream or a failure of the connection. *)
Record BodyStream : Type := mkBodyStream {
  chunks : list (list byte);
  failure : option Exn
}.

Record Response : Type := mkResponse {
  status : N;
  statusText : jsstring;
  content_type : option jsstring;   (* headers.get('content-type') *)
  body : option BodyStream          (* response.body, null without a body *)
}.

(** [response.ok]: the status is in the range 200 to 299. *)
Definition ok (r : Response) : bool :=
  (200 <=? status r) && (status r <=? 299).

(** What an [XMLHttpRequest] delivers to its listeners. *)
Inductive XhrEvent : Type :=
| XhrProgress (lengthComputable : bool) (loaded total : N)
| XhrLoad (xhr_status : N) (responseText : jsstring)
| XhrError
| XhrAbort.

Definition terminal (ev : XhrEvent) : bool :=
  match ev with
  | XhrProgress _ _ _ => false
  | XhrLoad _ _ | XhrError | XhrAbort => true
  end.

(** The network as the client meets it: [fetch] answers a request with a
    response or rejects; [xhr.open] followed by [xhr.send] throws (as
    [open] does for a URL that does not parse, nothing being sent then), or
    the request is sent and a sequence of events follows. *)
Record Transport : Type := mkTransport {
  fetch : Request -> Completion Response;
  xhr : Request -> Completion (list XhrEvent)
}.

(** The events that follow an upload; none when it was not sent. *)
Definition xhr_events (net : Transport) (req : Request) : list XhrEvent :=
  match xhr net req with
  | Normal evs => evs
  | Throw _ => []
  end.

(** ** The host: built-ins of the JavaScript engine *)

Class Host : Type := mkHost {
  (** [JSON.parse(text)]: a value, or a SyntaxError. *)
  JSON_parse : jsstring -> Completion value;
  (** The UTF-8 decoding of a whole body, as [response.text()] does it. *)
  utf8_decode : list byte -> jsstring;
  (** [new TextDecoder()] and [decoder.decode(value, { stream: true })]. *)
  TextDecoder : Type;
  new_TextDecoder : TextDecoder;
  decode : TextDecoder -> list byte -> jsstring * TextDecoder;
  (** The TypeError of reading property [p] of [null] or [undefined]. *)
  TypeError_nullish : jsstring -> Exn
}.

(** ** Effects *)

(** What the modelled code does to the outside, in order.  [EvCall f args]
    is a call of a helper defined outside the two files ([showToast],
    [setButtonLoading], ...), DOM elements being named by their id. *)
Inductive Event : Type :=
| EvFetch (req : Request)
| EvXhrSend (req : Request)
| EvConsoleError (label : jsstring) (e : Thrown)
| EvOnChunk (chunk : jsstring)
| EvOnProgress (percent : number)
| EvCall (fn : jsstring) (args : list value).

(** The state a computation runs in: the caller's own state [U] (the page,
    the variables its callbacks close over) and the trace so far. *)
Record World (U : Type) : Type := mkWorld { ui : U; trace : list Event }.
Arguments mkWorld {U} ui trace.
Arguments ui {U} w.
Arguments trace {U} w.

(** What a built-in does, seen from the code that calls it. *)
Definition raised {A} (c : Completion A) : Outcome Thrown A :=
  match c with
  | Normal a => Normal a
  | Throw e => Throw e
  end.

(** A computation returns or throws, and changes the world either way. *)
Definition Eff (U A : Type) : Type :=
  World U -> Outcome Thrown A * World U.

(** A callback supplied by the caller: it acts on the caller's state, and
    returns or throws whatever it likes. *)
Definition Callback (U A : Type) : Type :=
  A -> U -> Outcome Thrown unit * U.

Section EffOps.
Context {U : Type}.

Definition ret {A} (a : A) : Eff U A := fun w => (Normal a, w).

Definition throw {A} (e : Thrown) : Eff U A := fun w => (Throw e, w).

Definition bind {A B} (m : Eff U A) (k : A -> Eff U B) : Eff U B :=
  fun w =>
    match m w with
    | (Normal a, w') => k a w'
    | (Throw e, w') => (Throw e, w')
    end.

(** A call of a built-in: what it throws is an Error object. *)
Definition lift {A} (c : Completion A) : Eff U A := fun w => (raised c, w).

(** [try { body } catch (e) { handler }] *)
Definition try_catch {A} (body : Eff U A) (handler : Thrown -> Eff U A)
  : Eff U A :=
  fun w =>
    match body w with
    | (Normal a, w') => (Normal a, w')
    | (Throw e, w') => handler e w'
    end.

(** [try { body } finally { fin }] *)
Definition try_finally {A} (body : Eff U A) (fin : Eff U unit) : Eff U A :=
  fun w =>
    match body w with
    | (c, w') =>
        match fin w' with
        | (Normal _, w'') => (c, w'')
        | (Throw e, w'') => (Throw e, w'')
        end
    end.

Definition emit (ev : Event) : Eff U unit :=
  fun w => (Normal tt, mkWorld (ui w) (trace w ++ [ev])).

Definition get_ui : Eff U U := fun w => (Normal (ui w), w).

Definition modify_ui (f : U -> U) : Eff U unit :=
  fun w => (Normal tt, mkWorld (f (ui w)) (trace w)).

Definition invoke {A} (cb : Callback U A) (a : A) : Eff U unit :=
  fun w =>
    match cb a (ui w) with
    | (c, u') => (c, mkWorld u' (trace w))
    end.

End EffOps.

Declare Scope eff_scope.
Delimit Scope eff_scope with eff.
Notation "x <- m ;; k" := (bind m (fun x => k))
  (at level 61, m at next level, right associativity) : eff_scope.
Notation "m ;; k" := (bind m (fun _ => k))
  (at level 61, right associativity) : eff_scope.
Local Open Scope eff_scope.

(** ** api.js: the API client *)

(** [{ data, error }], the shape every client method returns. *)
Record Result : Type := mkResult { data : value; error : value }.

Section Body.
Context {H : Host}.

(** Reading a property that no built-in prototype defines ([error],
    [message], [detail], [status], [qdrant_connected]): the own property of
    an object, [undefined] on any other value, a TypeError on [null] and
    [undefined]. *)
Definition get_field (v : value) (p : jsstring) : Completion value :=
  match v with
  | VUndefined | VNull => Throw (TypeError_nullish p)
  | VObject props => Normal (own_property props p)
  | VBool _ | VNumber _ | VString _ | VArray _ => Normal VUndefined
  end.

(** [await response.text()]: the whole body, decoded; the empty string when
    there is no body; a rejection when the connection fails. *)
Definition response_text (r : Response) : Completion jsstring :=
  match body r with
  | None => Normal []
  | Some stream =>
      match failure stream with
      | Some e => Throw e
      | None => Normal (utf8_decode (List.concat (chunks stream)))
      end
  end.

(** [await response.json()]: the body text, parsed. *)
Definition response_json (r : Response) : Completion value :=
  match response_text r with
  | Normal text => JSON_parse text
  | Throw e => Throw e
  end.

(** [error.message] in a [catch] block: the message of an Error object;
    for anything else that was thrown, the property as read on any value. *)
Definition message_of (error : Thrown) : Completion value :=
  match error with
  | ErrorObject e => Normal (VString (message e))
  | Other v => get_field v "message"
  end.

(** [`HTTP ${response.status}: ${response.statusText}`] *)
Definition http_status_line (r : Response) : jsstring :=
  js "HTTP " ++ of_N (status r) ++ js ": " ++ statusText r.

End Body.

Section APIClient.
Context {H : Host} {U : Type}.
Variable net : Transport.
Variable baseURL : jsstring.

Definition js_fetch (req : Request) : Eff U Response :=
  emit (EvFetch req) ;; lift (fetch net req).

(** [a || b], the right operand evaluated only when the left is falsy. *)
Definition js_or (a b : Eff U value) : Eff U value :=
  v <- a ;; if truthy v then ret v else b.

(** [contentType && !contentType.includes('application/json')] *)
Definition non_json (contentType : option jsstring) : bool :=
  match contentType with
  | None => false
  | Some ct => nonempty ct && negb (includes ct "application/json")
  end.

(** The branch of [request] for non-JSON responses (lines 29-36). *)
Definition text_branch (response : Response) : Eff U Result :=
  text <- lift (response_text response) ;;
  if negb (ok response) then
    ret (mkResult VNull
           (VString (if nonempty text then text
                     else http_status_line response)))
  else
    ret (mkResult (VString text) VNull).

(** The branch of [request] for JSON responses (lines 39-48). *)
Definition json_branch (response : Response) : Eff U Result :=
  data <- lift (response_json response) ;;
  if negb (ok response) then
    err <- js_or (lift (get_field data "error"))
            (js_or (lift (get_field data "message"))
               (js_or (lift (get_field data "detail"))
                  (ret (VString (http_status_line response))))) ;;
    ret (mkResult VNull err)
  else
    ret (mkResult data VNull).

(** [catch (error)] of [request]. *)
Definition request_failed (error : Thrown) : Eff U Result :=
  emit (EvConsoleError "API request failed:" error) ;;
  err <- js_or (lift (message_of error))
          (ret (VString "Network error. Please check your connection.")) ;;
  ret (mkResult VNull err).

(** The arguments [request] calls [fetch] with: the URL and
    [{ headers: { ...options.headers }, ...options }]. *)
Definition fetch_args (endpoint : jsstring) (options : Options) : Request :=
  let url := baseURL ++ endpoint in
  mkRequest url (opt_method options)
    (match opt_headers options with Some h => h | None => [] end)
    (opt_body options).

Definition request (endpoint : jsstring) (options : Options)
  : Eff U Result :=
  try_catch
    (response <- js_fetch (fetch_args endpoint options) ;;
     let contentType := content_type response in
     if non_json contentType then text_branch response
     else json_branch response)
    request_failed.

(** *** uploadDocument *)

(** [(e.loaded / e.total) * 100] *)
Definition percent_complete (loaded total : N) : number :=
  SFmul prec emax
    (SFdiv prec emax (number_of_N loaded) (number_of_N total))
    (number_of_N 100).

(** [resolve(r)]: the first call settles the promise, later calls do
    nothing. *)
Definition resolve (settled : option Result) (r : Result) : option Result :=
  match settled with
  | Some r0 => Some r0
  | None => Some r
  end.

(** The body of the [load] listener: the [Result] it resolves with. *)
Definition on_load (xhr_status : N) (responseText : jsstring)
  : Eff U Result :=
  try_catch
    (if (200 <=? xhr_status) && (xhr_status <? 300) then
       data <- lift (JSON_parse responseText) ;;
       ret (mkResult data VNull)
     else
       errorData <- lift (JSON_parse responseText) ;;
       err <- js_or (lift (get_field errorData "error"))
               (js_or (lift (get_field errorData "message"))
                  (js_or (lift (get_field errorData "detail"))
                     (ret (VString (js "Upload failed with status "
                                      ++ of_N xhr_status))))) ;;
       ret (mkResult VNull err))
    (fun _ => ret (mkResult VNull
                     (VString "Failed to parse server response"))).

(** The [progress] listener.  What a listener throws does not reach the
    code that sent the request. *)
Definition on_progress (onProgress : option (Callback U number))
    (lengthComputable : bool) (loaded total : N) : Eff U unit :=
  match onProgress with
  | None => ret tt
  | Some cb =>
      if lengthComputable then
        let percentComplete := percent_complete loaded total in
        emit (EvOnProgress percentComplete) ;;
        try_catch (invoke cb percentComplete) (fun _ => ret tt)
      else ret tt
  end.

(** One event delivered to the listeners registered by [uploadDocument]. *)
Definition deliver (onProgress : option (Callback U number))
    (settled : option Result) (ev : XhrEvent) : Eff U (option Result) :=
  match ev with
  | XhrProgress lengthComputable loaded total =>
      on_progress onProgress lengthComputable loaded total ;;
      ret settled
  | XhrLoad xhr_status responseText =>
      r <- on_load xhr_status responseText ;;
      ret (resolve settled r)
  | XhrError =>
      ret (resolve settled
             (mkResult VNull (VString "Network error during upload")))
  | XhrAbort =>
      ret (resolve settled (mkResult VNull (VString "Upload cancelled")))
  end.

Fixpoint deliver_all (onProgress : option (Callback U number))
    (settled : option Result) (evs : list XhrEvent)
  : Eff U (option Result) :=
  match evs with
  | [] => ret settled
  | ev :: evs' =>
      settled' <- deliver onProgress settled ev ;;
      deliver_all onProgress settled' evs'
  end.

(** [xhr.open('POST', ...)] and [xhr.send(formData)]. *)
Definition upload_args (file : File) : Request :=
  mkRequest (baseURL ++ js "/documents/upload") (Some (js "POST"))
    [] (FormBody [(js "file", file)]).

(** The promise returned by [uploadDocument] once the events of the upload
    have been delivered: [Some r] when it is resolved with [r], [None]
    while it is pending.  [xhr.open] and [xhr.send] run in the executor of
    the promise, outside any [try]: what they throw rejects the promise. *)
Definition uploadDocument (file : File)
    (onProgress : option (Callback U number)) : Eff U (option Result) :=
  match xhr net (upload_args file) with
  | Throw e => throw e
  | Normal evs =>
      emit (EvXhrSend (upload_args file)) ;;
      deliver_all onProgress None evs
  end.

(** *** The JSON endpoints *)

Definition json_headers : Headers :=
  [(js "Content-Type", js "application/json")].

Definition getCollectionInfo : Eff U Result :=
  request "/documents/info" (mkOptions (Some (js "GET")) None NoBody).

Definition deleteCollection : Eff U Result :=
  request "/documents/collection"
    (mkOptions (Some (js "DELETE")) None NoBody).

(** The object [{ question, include_sources, enable_evaluation }]. *)
Definition query_payload (question : jsstring)
    (includeSources enableEvaluation : bool) : value :=
  VObject [ (js "question", VString question);
            (js "include_sources", VBool includeSources);
            (js "enable_evaluation", VBool enableEvaluation) ].

Definition query (question : jsstring)
    (includeSources enableEvaluation : bool) : Eff U Result :=
  request "/query"
    (mkOptions (Some (js "POST")) (Some json_headers)
       (JsonBody (query_payload question includeSources enableEvaluation))).

Definition searchDocuments (question : jsstring) : Eff U Result :=
  request "/query/search"
    (mkOptions (Some (js "POST")) (Some json_headers)
       (JsonBody (VObject [(js "question", VString question)]))).

Definition healthCheck : Eff U Result :=
  request "/health" (mkOptions (Some (js "GET")) None NoBody).

Definition readinessCheck : Eff U Result :=
  request "/health/ready" (mkOptions (Some (js "GET")) None NoBody).

(** *** queryStream *)

(** The [while (true)] loop over [reader.read()]: one turn per chunk that
    arrives, left at end-of-stream, abandoned when a read rejects or the
    callback throws. *)
Fixpoint read_loop (onChunk : option (Callback U jsstring))
    (decoder : TextDecoder) (pending : list (list byte))
    (failure : option Exn) (fullText : jsstring) : Eff U jsstring :=
  match pending with
  | [] =>
      match failure with
      | Some e => throw e
      | None => ret fullText
      end
  | value :: pending' =>
      let (chunk, decoder') := decode decoder value in
      let fullText' := fullText ++ chunk in
      match onChunk with
      | Some cb => emit (EvOnChunk chunk) ;; invoke cb chunk
      | None => ret tt
      end ;;
      read_loop onChunk decoder' pending' failure fullText'
  end.

(** [catch (error)] of [queryStream]. *)
Definition stream_failed (error : Thrown) : Eff U Result :=
  emit (EvConsoleError "Streaming query failed:" error) ;;
  err <- js_or (lift (message_of error))
          (ret (VString "Streaming failed. Please try again.")) ;;
  ret (mkResult VNull err).

Definition stream_args (question : jsstring) : Request :=
  mkRequest (baseURL ++ js "/query/stream") (Some (js "POST"))
    json_headers (JsonBody (query_payload question false false)).

Definition queryStream (question : jsstring)
    (onChunk : option (Callback U jsstring)) : Eff U Result :=
  try_catch
    (response <- js_fetch (stream_args question) ;;
     if negb (ok response) then
       errorText <- lift (response_text response) ;;
       ret (mkResult VNull
              (VString (if nonempty errorText then errorText
                        else http_status_line response)))
     else
       match body response with
       | None => throw (TypeError_nullish "getReader")
       | Some stream =>
           fullText <- read_loop onChunk new_TextDecoder (chunks stream)
                         (failure stream) [] ;;
           ret (mkResult (VString fullText) VNull)
       end)
    stream_failed.

End APIClient.

(** ** A host for the examples

    The theorems below hold for every [Host].  The examples run on this one:
    a [JSON.parse] for JSON texts whose numbers are integers written without
    fraction or exponent (any other text is a SyntaxError here), and UTF-8
    decoders that are exact on ASCII bytes. *)

Module RefHost.

Definition is_json_space (c : code_unit) : bool :=
  (c =? 0x20) || (c =? 0x9) || (c =? 0xA) || (c =? 0xD).

Fixpoint skip_space (s : jsstring) : jsstring :=
  match s with
  | [] => []
  | c :: s' => if is_json_space c then skip_space s' else s
  end.

Definition hex_digit (c : code_unit) : option N :=
  if (48 <=? c) && (c <=? 57) then Some (c - 48)
  else if (65 <=? c) && (c <=? 70) then Some (c - 55)
  else if (97 <=? c) && (c <=? 102) then Some (c - 87)
  else None.

Definition hex4 (a b c d : code_unit) : option code_unit :=
  match hex_digit a, hex_digit b, hex_digit c, hex_digit d with
  | Some x, Some y, Some z, Some w => Some (((x * 16 + y) * 16 + z) * 16 + w)
  | _, _, _, _ => None
  end.

(** The characters of a string after its opening quote, up to and without
    the closing quote. *)
Fixpoint string_chars (fuel : nat) (s acc : jsstring)
  : option (jsstring * jsstring) :=
  match fuel with
  | O => None
  | S fuel' =>
      match s with
      | [] => None
      | 34 :: s' => Some (rev acc, s')
      | 92 :: 117 :: a :: b :: c :: d :: s' =>
          match hex4 a b c d with
          | Some u => string_chars fuel' s' (u :: acc)
          | None => None
          end
      | 92 :: e :: s' =>
          let unescaped :=
            match e with
            | 34 => Some 34 | 92 => Some 92 | 47 => Some 47
            | 98 => Some 8 | 102 => Some 12 | 110 => Some 10
            | 114 => Some 13 | 116 => Some 9
            | _ => None
            end in
          match unescaped with
          | Some u => string_chars fuel' s' (u :: acc)
          | None => None
          end
      | c :: s' =>
          if c <? 0x20 then None else string_chars fuel' s' (c :: acc)
      end
  end.

Fixpoint digits (s : jsstring) (acc : N) : N * jsstring :=
  match s with
  | c :: s' =>
      if (48 <=? c) && (c <=? 57) then digits s' (acc * 10 + (c - 48))
      else (acc, s)
  | [] => (acc, [])
  end.

(** An integer literal: [0], or a non-zero digit followed by digits; a
    fraction or an exponent is outside the fragment. *)
Definition integer (s : jsstring) : option (N * jsstring) :=
  match s with
  | c :: s' =>
      if (48 <=? c) && (c <=? 57) then
        let (n, rest) := if c =? 48 then (0, s') else digits s 0 in
        match rest with
        | d :: _ =>
            if (d =? 46) || (d =? 101) || (d =? 69)
               || ((48 <=? d) && (d <=? 57))
            then None else Some (n, rest)
        | [] => Some (n, rest)
        end
      else None
  | [] => None
  end.

(** [CreateDataProperty]: a repeated key keeps its place and takes the
    later value. *)
Fixpoint set_property (props : list (jsstring * value)) (k : jsstring)
    (v : value) : list (jsstring * value) :=
  match props with
  | [] => [(k, v)]
  | (k', v') :: props' =>
      if str_eqb k' k then (k', v) :: props'
      else (k', v') :: set_property props' k v
  end.

Fixpoint parse_value (fuel : nat) (s : jsstring)
  : option (value * jsstring) :=
  match fuel with
  | O => None
  | S fuel' =>
      match skip_space s with
      | 110 :: 117 :: 108 :: 108 :: s' => Some (VNull, s')
      | 116 :: 114 :: 117 :: 101 :: s' => Some (VBool true, s')
      | 102 :: 97 :: 108 :: 115 :: 101 :: s' => Some (VBool false, s')
      | 34 :: s' =>
          match string_chars (List.length s') s' [] with
          | Some (str, rest) => Some (VString str, rest)
          | None => None
          end
      | 45 :: s' =>
          match integer s' with
          | Some (n, rest) =>
              Some (VNumber (SFopp (number_of_N n)), rest)
          | None => None
          end
      | 91 :: s' =>
          match skip_space s' with
          | 93 :: rest => Some (VArray [], rest)
          | _ => parse_elements fuel' s' []
          end
      | 123 :: s' =>
          match skip_space s' with
          | 125 :: rest => Some (VObject [], rest)
          | _ => parse_members fuel' s' []
          end
      | s' =>
          match integer s' with
          | Some (n, rest) => Some (VNumber (number_of_N n), rest)
          | None => None
          end
      end
  end
with parse_elements (fuel : nat) (s : jsstring) (acc : list value)
  : option (value * jsstring) :=
  match fuel with
  | O => None
  | S fuel' =>
      match parse_value fuel' s with
      | Some (v, rest) =>
          match skip_space rest with
          | 44 :: rest' => parse_elements fuel' rest' (acc ++ [v])
          | 93 :: rest' => Some (VArray (acc ++ [v]), rest')
          | _ => None
          end
      | None => None
      end
  end
with parse_members (fuel : nat) (s : jsstring)
    (acc : list (jsstring * value)) : option (value * jsstring) :=
  match fuel with
  | O => None
  | S fuel' =>
      match skip_space s with
      | 34 :: s' =>
          match string_chars (List.length s') s' [] with
          | Some (k, rest) =>
              match skip_space rest with
              | 58 :: rest' =>
                  match parse_value fuel' rest' with
                  | Some (v, rest'') =>
                      match skip_space rest'' with
                      | 44 :: more =>
                          parse_members fuel' more (set_property acc k v)
                      | 125 :: more =>
                          Some (VObject (set_property acc k v), more)
                      | _ => None
                      end
                  | None => None
                  end
              | _ => None
              end
          | None => None
          end
      | _ => None
      end
  end.

Definition SyntaxError : Exn :=
  mkExn "SyntaxError" "Unexpected token in JSON".

Definition parse (text : jsstring) : Completion value :=
  match parse_value (2 * List.length text + 2) text with
  | Some (v, rest) =>
      match skip_space rest with
      | [] => Normal v
      | _ :: _ => Throw SyntaxError
      end
  | None => Throw SyntaxError
  end.

(** An ASCII byte is its own code unit; any other byte is shown as U+FFFD. *)
Definition decode_byte (b : byte) : code_unit :=
  let n := Byte.to_N b in if n <? 128 then n else 0xFFFD.

#[export] Instance host : Host := {|
  JSON_parse := parse;
  utf8_decode := map decode_byte;
  TextDecoder := unit;
  new_TextDecoder := tt;
  decode := fun d value => (map decode_byte value, d);
  TypeError_nullish := fun p =>
    mkExn "TypeError" (js "Cannot read properties of null (reading '"
                         ++ p ++ js "')")
|}.

(** The bytes of an ASCII text. *)
Definition bytes (s : string) : list byte := list_byte_of_string s.

(** A JSON text written with ['] for the quotation mark. *)
Definition json_text (s : string) : jsstring :=
  map (fun c => if c =? 39 then 34 else c) (js s).

Definition json_bytes (s : string) : list byte :=
  map (fun b => if Byte.eqb b x27 then x22 else b) (bytes s).

End RefHost.

(** ** app.js: the page *)

(** Markup is kept symbolic: one constructor per template of [app.js] and per
    [Components] function it calls, holding the data the template is filled
    with. *)
Inductive Html : Type :=
| Blank
    (* '' *)
| StatusDot (statusClass statusText : jsstring)
    (* <span class="status-dot ${statusClass}"></span>
       <span class="fw-semibold">${statusText}</span> *)
| ErrorAlert (msg : value)
    (* Components.errorAlert(msg) *)
| LoadingSpinner (msg : jsstring)
    (* Components.loadingSpinner(msg) *)
| StreamingCard (question answer : jsstring) (cursor badge : bool)
    (* the answer card of handleStreamingQuery: the escaped question, the
       escaped text of #streamingAnswer, with or without the streaming
       cursor after it and the "Streaming" badge below it *)
| Rendered (markup : jsstring).
    (* markup assembled by Components for a successful answer *)

(** The elements of the page that the modelled functions read or write. *)
Record Page : Type := mkPage {
  questionInput_value : jsstring;
  includeSourcesCheck_checked : bool;
  enableEvaluationCheck_checked : bool;
  useStreamingCheck_checked : bool;
  charCounter_textContent : jsstring;
  charCounter_classList : list jsstring;
  resultsArea_innerHTML : Html;
  healthStatus_innerHTML : Html
}.

Definition set_charCounter_textContent (t : jsstring) (p : Page) : Page :=
  mkPage (questionInput_value p) (includeSourcesCheck_checked p)
    (enableEvaluationCheck_checked p) (useStreamingCheck_checked p)
    t (charCounter_classList p)
    (resultsArea_innerHTML p) (healthStatus_innerHTML p).

Definition set_charCounter_classList (c : list jsstring) (p : Page) : Page :=
  mkPage (questionInput_value p) (includeSourcesCheck_checked p)
    (enableEvaluationCheck_checked p) (useStreamingCheck_checked p)
    (charCounter_textContent p) c
    (resultsArea_innerHTML p) (healthStatus_innerHTML p).

Definition set_resultsArea (h : Html) (p : Page) : Page :=
  mkPage (questionInput_value p) (includeSourcesCheck_checked p)
    (enableEvaluationCheck_checked p) (useStreamingCheck_checked p)
    (charCounter_textContent p) (charCounter_classList p)
    h (healthStatus_innerHTML p).

Definition set_healthStatus (h : Html) (p : Page) : Page :=
  mkPage (questionInput_value p) (includeSourcesCheck_checked p)
    (enableEvaluationCheck_checked p) (useStreamingCheck_checked p)
    (charCounter_textContent p) (charCounter_classList p)
    (resultsArea_innerHTML p) h.

(** [DOMTokenList]: an ordered set of tokens. *)
Module ClassList.

Definition contains (l : list jsstring) (token : jsstring) : bool :=
  existsb (str_eqb token) l.

Definition add (token : jsstring) (l : list jsstring) : list jsstring :=
  if contains l token then l else l ++ [token].

Definition remove (token : jsstring) (l : list jsstring) : list jsstring :=
  filter (fun t => negb (str_eqb token t)) l.

End ClassList.

(** [{ valid, error }], what [validateQuestion] returns. *)
Record Validation : Type := mkValidation {
  valid : bool;
  validation_error : value
}.

(** Functions of the page's other scripts that the modelled code calls and
    whose result it uses.  [validateQuestion] is the check of the question
    text; [answerMarkup data includeSources enableEvaluation] is the markup
    that [handleStandardQuery] assembles from [Components.answerDisplay],
    [Components.sourceAccordion] and [Components.evaluationDisplay] for a
    successful answer (lines 260-279), or what that assembly throws. *)
Class Scripts : Type := mkScripts {
  validateQuestion : jsstring -> Validation;
  answerMarkup : value -> bool -> bool -> Completion jsstring
}.

Section App.
Context {H : Host} {scripts : Scripts}.
Variable net : Transport.

(** [apiClient = new APIClient()]: the base URL is the empty string. *)
Definition apiClient_baseURL : jsstring := [].

(** A call of a helper that acts on the page outside the model. *)
Definition call {U} (fn : string) (args : list value) : Eff U unit :=
  emit (EvCall fn args).

(** *** The character counter (the [input] listener of
    [initializeQueryForm]) *)
Definition questionInput_oninput : Eff Page unit :=
  page <- get_ui ;;
  let length := N.of_nat (List.length (questionInput_value page)) in
  modify_ui (set_charCounter_textContent (of_N length ++ js " / 1000")) ;;
  (if 900 <? length then
     modify_ui (fun p => set_charCounter_classList
                  (ClassList.add "warning" (charCounter_classList p)) p)
   else
     modify_ui (fun p => set_charCounter_classList
                  (ClassList.remove "warning" (charCounter_classList p)) p)) ;;
  (if 950 <? length then
     modify_ui (fun p => set_charCounter_classList
                  (ClassList.add "danger" (charCounter_classList p)) p) ;;
     modify_ui (fun p => set_charCounter_classList
                  (ClassList.remove "warning" (charCounter_classList p)) p)
   else
     modify_ui (fun p => set_charCounter_classList
                  (ClassList.remove "danger" (charCounter_classList p)) p)).

(** *** updateHealthIndicator *)
Definition updateHealthIndicator : Eff Page unit :=
  modify_ui (set_healthStatus (StatusDot "checking" "Checking...")) ;;
  r <- readinessCheck net apiClient_baseURL ;;
  if truthy (error r) then
    modify_ui (set_healthStatus (StatusDot "unhealthy" "Unhealthy"))
  else
    status <- lift (get_field (data r) "status") ;;
    isHealthy <- (if strict_eq_string status "ready"
                  then lift (get_field (data r) "qdrant_connected")
                  else ret (VBool false)) ;;
    let statusClass : jsstring :=
      if truthy isHealthy then "healthy" else "unhealthy" in
    let statusText : jsstring :=
      if truthy isHealthy then "Healthy" else "Degraded" in
    modify_ui (set_healthStatus (StatusDot statusClass statusText)).

(** *** handleStandardQuery *)
Definition handleStandardQuery (question : jsstring)
    (includeSources enableEvaluation : bool) : Eff Page unit :=
  modify_ui (set_resultsArea
               (LoadingSpinner "Processing your question...")) ;;
  r <- query net apiClient_baseURL question includeSources
         enableEvaluation ;;
  if truthy (error r) then
    modify_ui (set_resultsArea (ErrorAlert (error r))) ;;
    call "showToast" [error r; VString "error"]
  else
    html <- lift (answerMarkup (data r) includeSources enableEvaluation) ;;
    modify_ui (set_resultsArea (Rendered html)) ;;
    call "initializeTooltips" [] ;;
    call "scrollToElement" [VString "resultsArea"] ;;
    call "showToast" [VString "Answer generated successfully";
                      VString "success"].

(** *** handleStreamingQuery *)

(** [answerDiv.innerHTML = ...]: the text of [#streamingAnswer], an element
    of the card; when the card is no longer the content of the results
    area the element is detached and the page does not change. *)
Definition set_streamingAnswer (answer : jsstring) (cursor : bool)
    (p : Page) : Page :=
  match resultsArea_innerHTML p with
  | StreamingCard question _ _ badge =>
      set_resultsArea (StreamingCard question answer cursor badge) p
  | _ => p
  end.

(** [resultsArea.querySelector('.badge').remove()] *)
Definition remove_badge (p : Page) : Outcome Thrown unit * Page :=
  match resultsArea_innerHTML p with
  | StreamingCard question answer cursor true =>
      (Normal tt,
       set_resultsArea (StreamingCard question answer cursor false) p)
  | _ => (Throw (TypeError_nullish "remove"), p)
  end.

(** The [onChunk] callback; it closes over [fullAnswer], the second
    component of the state. *)
Definition streaming_onChunk : Callback (Page * jsstring) jsstring :=
  fun chunk st =>
    let (page, fullAnswer) := st in
    let fullAnswer' := fullAnswer ++ chunk in
    (Normal tt, (set_streamingAnswer fullAnswer' true page, fullAnswer')).

(** Runs [m] with a local variable next to the caller's state. *)
Definition with_local {U L A} (init : L) (m : Eff (U * L) A)
  : Eff U (A * L) :=
  fun w =>
    match m (mkWorld (ui w, init) (trace w)) with
    | (Normal a, w') =>
        (Normal (a, snd (ui w')), mkWorld (fst (ui w')) (trace w'))
    | (Throw e, w') => (Throw e, mkWorld (fst (ui w')) (trace w'))
    end.

Definition handleStreamingQuery (question : jsstring) : Eff Page unit :=
  modify_ui (set_resultsArea (StreamingCard question [] true true)) ;;
  res <- with_local ([] : jsstring)
           (queryStream net apiClient_baseURL question
              (Some streaming_onChunk)) ;;
  let (r, fullAnswer) := res in
  if truthy (error r) then
    modify_ui (set_resultsArea (ErrorAlert (error r))) ;;
    call "showToast" [error r; VString "error"]
  else
    modify_ui (set_streamingAnswer fullAnswer false) ;;
    invoke (fun _ => remove_badge) tt ;;
    call "showToast" [VString "Answer generated successfully";
                      VString "success"].

(** *** handleQuerySubmit *)
Definition handleQuerySubmit : Eff Page unit :=
  page <- get_ui ;;
  let question := trim (questionInput_value page) in
  let includeSources := includeSourcesCheck_checked page in
  let enableEvaluation := enableEvaluationCheck_checked page in
  let useStreaming := useStreamingCheck_checked page in
  call "validateQuestion" [VString question] ;;
  let validation := validateQuestion question in
  if negb (valid validation) then
    call "showToast" [validation_error validation; VString "error"]
  else
    modify_ui (set_resultsArea Blank) ;;
    call "setButtonLoading"
      [VString "submitQueryBtn"; VBool true; VString "Processing..."] ;;
    try_finally
      (try_catch
         (if useStreaming then handleStreamingQuery question
          else handleStandardQuery question includeSources
                 enableEvaluation)
         (fun err =>
            msg <- lift (message_of err) ;;
            modify_ui (set_resultsArea (ErrorAlert msg)) ;;
            call "showToast" [VString "Query failed"; VString "error"]))
      (call "setButtonLoading" [VString "submitQueryBtn"; VBool false]).

End App.

(** ** Vocabulary of the properties *)

Definition nullish (v : value) : bool :=
  match v with VUndefined | VNull => true | _ => false end.

(** The value of property [p] of a value that is neither [null] nor
    [undefined]. *)
Definition field (v : value) (p : jsstring) : value :=
  match v with
  | VObject props => own_property props p
  | _ => VUndefined
  end.

(** [v1 || v2 || ... || fallback] *)
Fixpoint first_truthy (vs : list value) (fallback : value) : value :=
  match vs with
  | [] => fallback
  | v :: vs' => if truthy v then v else first_truthy vs' fallback
  end.

Fixpoint has_property (props : list (jsstring * value)) (p : jsstring)
  : bool :=
  match props with
  | [] => false
  | (k, _) :: props' => str_eqb k p || has_property props' p
  end.

(** The extraction of the error message as the specification words it: the
    first of the three fields that is present. *)
Definition first_present (body : value) (fallback : jsstring) : value :=
  match body with
  | VObject props =>
      if has_property props "error" then own_property props "error"
      else if has_property props "message" then own_property props "message"
      else if has_property props "detail" then own_property props "detail"
      else VString fallback
  | _ => VString fallback
  end.

(** Exactly one of [data] and [error] is non-null. *)
Definition exactly_one (r : Result) : bool :=
  xorb (is_null (data r)) (is_null (error r)).

(** Either [error] is null, or [data] is null and [error] is truthy. *)
Definition success_or_failure (r : Result) : Prop :=
  error r = VNull \/ (data r = VNull /\ truthy (error r) = true).

(** The world after one more event. *)
Definition sent {U} (w : World U) (ev : Event) : World U :=
  mkWorld (ui w) (trace w ++ [ev]).

(** The arguments of the [onChunk] calls, the requests handed to [fetch] and
    the arguments of the calls of the helper [fn] that a trace records. *)
Definition onChunk_calls (tr : list Event) : list jsstring :=
  flat_map (fun ev => match ev with EvOnChunk chunk => [chunk] | _ => [] end)
    tr.

Definition fetches (tr : list Event) : list Request :=
  flat_map (fun ev => match ev with EvFetch req => [req] | _ => [] end) tr.

Definition calls_of (fn : jsstring) (tr : list Event) : list (list value) :=
  flat_map (fun ev => match ev with
                      | EvCall f args => if str_eqb f fn then [args] else []
                      | _ => []
                      end) tr.

(** Events that are neither requests nor calls of helpers. *)
Definition passive (ev : Event) : bool :=
  match ev with
  | EvConsoleError _ _ | EvOnChunk _ | EvOnProgress _ => true
  | EvFetch _ | EvXhrSend _ | EvCall _ _ => false
  end.

(** A stretch of trace without requests and without checks of the
    question. *)
Definition inert (log : list Event) : Prop :=
  fetches log = [] /\ calls_of "validateQuestion" log = [].

Section Outcomes.
Context {H : Host}.

(** What the chain [body.error || body.message || body.detail || fallback]
    evaluates to. *)
Definition extract_error (body : value) (fallback : jsstring)
  : Completion value :=
  if nullish body then Throw (TypeError_nullish "error")
  else Normal (first_truthy
                 [field body "error"; field body "message";
                  field body "detail"] (VString fallback)).

(** What [request] returns, by cases on what the transport delivers. *)
Definition request_outcome (c : Completion Response) : Result :=
  let failed e :=
    mkResult VNull
      (VString (if nonempty (message e) then message e
                else "Network error. Please check your connection.")) in
  match c with
  | Throw e => failed e
  | Normal response =>
      if non_json (content_type response) then
        match response_text response with
        | Throw e => failed e
        | Normal text =>
            if ok response then mkResult (VString text) VNull
            else mkResult VNull
                   (VString (if nonempty text then text
                             else http_status_line response))
        end
      else
        match response_json response with
        | Throw e => failed e
        | Normal body =>
            if ok response then mkResult body VNull
            else match extract_error body (http_status_line response) with
                 | Normal err => mkResult VNull err
                 | Throw e => failed e
                 end
        end
  end.

Definition parse_failure : Result :=
  mkResult VNull (VString "Failed to parse server response").

(** What the [load] listener resolves the promise with. *)
Definition load_outcome (xhr_status : N) (responseText : jsstring)
  : Result :=
  match JSON_parse responseText with
  | Throw _ => parse_failure
  | Normal body =>
      if (200 <=? xhr_status) && (xhr_status <? 300)
      then mkResult body VNull
      else match extract_error body
                   (js "Upload failed with status " ++ of_N xhr_status) with
           | Normal err => mkResult VNull err
           | Throw _ => parse_failure
           end
  end.

(** What the promise of an upload holds after one more event. *)
Definition settle (settled : option Result) (ev : XhrEvent)
  : option Result :=
  match ev with
  | XhrProgress _ _ _ => settled
  | XhrLoad xhr_status responseText =>
      resolve settled (load_outcome xhr_status responseText)
  | XhrError =>
      resolve settled
        (mkResult VNull (VString "Network error during upload"))
  | XhrAbort =>
      resolve settled (mkResult VNull (VString "Upload cancelled"))
  end.

End Outcomes.

Section Calls.
Context {H : Host} {U : Type}.
Variable net : Transport.
Variable baseURL : jsstring.

(** A call of a method of the client. *)
Inductive Call : Type :=
| CallRequest (endpoint : jsstring) (options : Options)
| CallUploadDocument (file : File) (onProgress : option (Callback U number))
| CallGetCollectionInfo
| CallDeleteCollection
| CallQuery (question : jsstring) (includeSources enableEvaluation : bool)
| CallQueryStream (question : jsstring)
    (onChunk : option (Callback U jsstring))
| CallSearchDocuments (question : jsstring)
| CallHealthCheck
| CallReadinessCheck.

(** The promise a call returns: [Some r] once resolved with [r], [None]
    while pending. *)
Definition perform (call : Call) : Eff U (option Result) :=
  let resolved (m : Eff U Result) := r <- m ;; ret (Some r) in
  match call with
  | CallRequest endpoint options =>
      resolved (request net baseURL endpoint options)
  | CallUploadDocument file onProgress =>
      uploadDocument net baseURL file onProgress
  | CallGetCollectionInfo => resolved (getCollectionInfo net baseURL)
  | CallDeleteCollection => resolved (deleteCollection net baseURL)
  | CallQuery question includeSources enableEvaluation =>
      resolved (query net baseURL question includeSources enableEvaluation)
  | CallQueryStream question onChunk =>
      resolved (queryStream net baseURL question onChunk)
  | CallSearchDocuments question =>
      resolved (searchDocuments net baseURL question)
  | CallHealthCheck => resolved (healthCheck net baseURL)
  | CallReadinessCheck => resolved (readinessCheck net baseURL)
  end.

Definition is_stream (call : Call) : bool :=
  match call with CallQueryStream _ _ => true | _ => false end.

(** The answer to the request made between the worlds [w] and [w'] is a
    success whose JSON body is [null]: the response to the request handed
    to [fetch] has a 2xx status and is parsed as JSON, to [null]; or the
    first terminal event of the upload that was sent is a [load] with a 2xx
    status and the text of JSON [null]. *)
Definition null_payload (w w' : World U) : Prop :=
  (exists req response log,
      trace w' = trace w ++ EvFetch req :: log
      /\ fetch net req = Normal response /\ ok response = true
      /\ non_json (content_type response) = false
      /\ response_json response = Normal VNull)
  \/ (exists req pre xhr_status responseText post log,
         trace w' = trace w ++ EvXhrSend req :: log
         /\ xhr net req
            = Normal (pre ++ XhrLoad xhr_status responseText :: post)
         /\ forallb (fun ev => negb (terminal ev)) pre = true
         /\ (200 <=? xhr_status) && (xhr_status <? 300) = true
         /\ JSON_parse responseText = Normal VNull).

End Calls.

(** [v === true] *)
Definition is_true (v : value) : bool :=
  match v with VBool true => true | _ => false end.

(** The health indicator as the specification words it: healthy when
    [status] is "ready" and [qdrant_connected] is [true], degraded for any
    other data, unhealthy for an error. *)
Definition indicator_as_specified (r : Result) : Html :=
  if negb (is_null (error r)) then StatusDot "unhealthy" "Unhealthy"
  else if strict_eq_string (field (data r) "status") "ready"
          && is_true (field (data r) "qdrant_connected")
       then StatusDot "healthy" "Healthy"
       else StatusDot "unhealthy" "Degraded".

Definition get_options : Options := mkOptions (Some (js "GET")) None NoBody.

(** The request of [apiClient.readinessCheck()] and of [apiClient.query]. *)
Definition ready_args : Request :=
  fetch_args apiClient_baseURL "/health/ready" get_options.

Definition query_args (question : jsstring)
    (includeSources enableEvaluation : bool) : Request :=
  fetch_args apiClient_baseURL "/query"
    (mkOptions (Some (js "POST")) (Some json_headers)
       (JsonBody (query_payload question includeSources enableEvaluation))).

(** ** Inputs of the examples *)

Module Examples.
Import RefHost.

Definition w0 : World unit := mkWorld tt [].

(** A transport that answers every request with the same response and
    every upload with the same events. *)
Definition answering (response : Response) (evs : list XhrEvent)
  : Transport :=
  mkTransport (fun _ => Normal response) (fun _ => Normal evs).

Definition json_response (status : N) (statusText body : string)
  : Response :=
  mkResponse status statusText (Some (js "application/json"))
    (Some (mkBodyStream [json_bytes body] None)).

Definition text_response (status : N) (statusText : string)
    (content_type : option jsstring) (pieces : list string) : Response :=
  mkResponse status statusText content_type
    (Some (mkBodyStream (map bytes pieces) None)).

Definition null_body : Transport :=
  answering (json_response 200 "OK" "null") [].

Definition empty_error_field : Response :=
  json_response 500 "Internal Server Error"
    "{'error': '', 'message': 'boom'}".

Definition not_found : Response :=
  json_response 404 "Not Found" "{'detail': 'Collection not found'}".

Definition hello_stream : Response :=
  text_response 200 "OK" (Some (js "text/plain")) ["Hel"; "lo"].

Definition empty_500 : Response :=
  text_response 500 "Internal Server Error" None [].

Definition overloaded : Response :=
  text_response 503 "Service Unavailable" (Some (js "text/plain"))
    ["overloaded"].

Definition html_page : Response :=
  text_response 200 "OK" None ["<html>"].

Definition a_file : File := mkFile "a.pdf" [].

Definition upload_html : list XhrEvent :=
  [XhrProgress true 5 10; XhrLoad 200 "<html>"].

Definition upload_ok : list XhrEvent :=
  [XhrProgress true 10 10; XhrLoad 200 (json_text "{'filename': 'a.pdf'}")].

(** A callback that keeps what it is given. *)
Definition keep : Callback (list jsstring) jsstring :=
  fun chunk kept => (Normal tt, kept ++ [chunk]).

Definition blank_page : Page :=
  mkPage [] true false false [] [] Blank Blank.

Definition ready_connected : Transport :=
  answering (json_response 200 "OK"
               "{'status': 'ready', 'qdrant_connected': true}") [].

Definition ready_yes : Response :=
  json_response 200 "OK" "{'status': 'ready', 'qdrant_connected': 'yes'}".

(** A page whose question is [n] characters long and whose counter still
    carries the classes of an earlier, longer text. *)
Definition typed (n : nat) : Page :=
  mkPage (repeat 97 n) true false false [] [js "danger"] Blank Blank.

Definition asking (text : string) (streaming : bool) : Page :=
  mkPage text true false streaming [] [] Blank Blank.

(** A check of the question that accepts what is not empty. *)
Definition sample_scripts : Scripts := {|
  validateQuestion := fun q =>
    mkValidation (nonempty q) (VString "Please enter a question");
  answerMarkup := fun _ _ _ => Normal (js "<div>answer</div>")
|}.

End Examples.

(** ** Vocabulary of the further properties *)

Section Decoding.
Context {H : Host}.

(** What [decoder.decode(value, { stream: true })] returns for the
    successive chunks of a body, the decoder keeping its state from one call
    to the next. *)
Fixpoint decode_all (decoder : TextDecoder) (pending : list (list byte))
  : list jsstring :=
  match pending with
  | [] => []
  | value :: pending' =>
      let (chunk, decoder') := decode decoder value in
      chunk :: decode_all decoder' pending'
  end.

End Decoding.

(** A callback called on the chunks of a stream, each time in the state
    its call before left, until it throws: the chunks it is called on (all
    up to and including the first on which it throws), what it throws
    there, and the state it leaves. *)
Fixpoint call_each {U} (cb : Callback U jsstring) (decoded : list jsstring)
    (u : U) : list jsstring * option Thrown * U :=
  match decoded with
  | [] => ([], None, u)
  | chunk :: decoded' =>
      match cb chunk u with
      | (Throw t, u') => ([chunk], Some t, u')
      | (Normal _, u') =>
          let '(calls, thrown, u'') := call_each cb decoded' u' in
          (chunk :: calls, thrown, u'')
      end
  end.

(** The Result of a [catch] block: [{ data: null, error: e.message ||
    fallback }]. *)
Definition caught (e : Exn) (fallback : jsstring) : Result :=
  mkResult VNull
    (VString (if nonempty (message e) then message e else fallback)).

(** The percentages an upload reports: one for each [progress] event whose
    length is computable. *)
Definition computable_progress (evs : list XhrEvent) : list number :=
  flat_map (fun ev => match ev with
                      | XhrProgress true loaded total =>
                          [percent_complete loaded total]
                      | _ => []
                      end) evs.

(** A value that has properties of its own to read: an object. *)
Definition is_object (v : value) : bool :=
  match v with VObject _ => true | _ => false end.

(** White space at neither end. *)
Definition trimmed (s : jsstring) : Prop :=
  (forall c rest, s = c :: rest -> is_white_space c = false)
  /\ (forall c init, s = init ++ [c] -> is_white_space c = false).

(** *** The streaming toggle (the [change] listener of
    [initializeQueryForm]) *)

(** The query form: the page and the [disabled] flag of the "include
    sources" box. *)
Record QueryForm : Type := mkQueryForm {
  form_page : Page;
  includeSourcesCheck_disabled : bool
}.

Definition set_includeSourcesCheck_checked (b : bool) (p : Page) : Page :=
  mkPage (questionInput_value p) b
    (enableEvaluationCheck_checked p) (useStreamingCheck_checked p)
    (charCounter_textContent p) (charCounter_classList p)
    (resultsArea_innerHTML p) (healthStatus_innerHTML p).

Definition set_useStreamingCheck_checked (b : bool) (p : Page) : Page :=
  mkPage (questionInput_value p) (includeSourcesCheck_checked p)
    (enableEvaluationCheck_checked p) b
    (charCounter_textContent p) (charCounter_classList p)
    (resultsArea_innerHTML p) (healthStatus_innerHTML p).

Definition useStreamingCheck_onchange : Eff QueryForm unit :=
  form <- get_ui ;;
  if useStreamingCheck_checked (form_page form) then
    modify_ui (fun f => mkQueryForm
                 (set_includeSourcesCheck_checked false (form_page f))
                 (includeSourcesCheck_disabled f)) ;;
    modify_ui (fun f => mkQueryForm (form_page f) true)
  else
    modify_ui (fun f => mkQueryForm (form_page f) false).

(** The user sets the streaming box to [b]; the browser then fires
    [change]. *)
Definition set_streaming (b : bool) : Eff QueryForm unit :=
  modify_ui (fun f => mkQueryForm
               (set_useStreamingCheck_checked b (form_page f))
               (includeSourcesCheck_disabled f)) ;;
  useStreamingCheck_onchange.

Fixpoint set_streaming_each (bs : list bool) : Eff QueryForm unit :=
  match bs with
  | [] => ret tt
  | b :: bs' => set_streaming b ;; set_streaming_each bs'
  end.

(** *** Inputs of the further examples *)

Module MoreExamples.
Import RefHost Examples.

(** A transport on which every request fails. *)
Definition rejecting (e : Exn) : Transport :=
  mkTransport (fun _ => Throw e) (fun _ => Normal []).

Definition offline : Exn := mkExn "TypeError" "Failed to fetch".

Definition plain_text : Response :=
  text_response 200 "OK" (Some (js "text/plain")) ["pong"].

Definition json_utf8 : Response :=
  mkResponse 200 "OK" (Some (js "application/json; charset=utf-8"))
    (Some (mkBodyStream [json_bytes "{'status': 'healthy'}"] None)).

Definition array_error : Response :=
  json_response 502 "Bad Gateway" "['upstream', 'down']".

Definition null_error : Response :=
  json_response 500 "Internal Server Error" "null".

Definition reset : Exn := mkExn "TypeError" "network error".

(** A stream that breaks after two chunks. *)
Definition broken_stream : Response :=
  mkResponse 200 "OK" (Some (js "text/plain"))
    (Some (mkBodyStream (map bytes ["Hel"; "lo"]) (Some reset))).

Definition no_body : Response := mkResponse 204 "No Content" None None.

(** A callback that keeps what it is given and throws once it has kept a
    chunk already; another that throws [null] at such a point. *)
Definition refusal : Exn := mkExn "Error" "no more".

Definition picky : Callback (list jsstring) jsstring :=
  fun chunk kept =>
    (match kept with [] => Normal tt | _ :: _ => Throw refusal end,
     kept ++ [chunk]).

Definition throws_null : Callback (list jsstring) jsstring :=
  fun chunk kept =>
    (match kept with [] => Normal tt | _ :: _ => Throw (Other VNull) end,
     kept ++ [chunk]).

(** A transport that fails every request and on which [xhr.open] throws. *)
Definition invalid_url : Exn := mkExn "SyntaxError" "Invalid URL".

Definition unopenable : Transport :=
  mkTransport (fun _ => Throw (mkExn "TypeError" "Failed to fetch"))
    (fun _ => Throw invalid_url).

Definition three_chunks : Response :=
  text_response 200 "OK" (Some (js "text/plain")) ["Hel"; "lo"; "!"].

(** A progress callback that always throws. *)
Definition faulty : Callback unit number :=
  fun _ u => (Throw refusal, u).

Definition upload_failed : list XhrEvent :=
  [XhrProgress true 1 4; XhrProgress false 0 0; XhrError;
   XhrLoad 200 (json_text "{'filename': 'a.pdf'}")].

Definition upload_too_large : list XhrEvent :=
  [XhrLoad 413 (json_text "{'detail': 'File too large'}")].

Definition upload_null_error : list XhrEvent := [XhrLoad 500 "null"].

Definition upload_in_flight : list XhrEvent :=
  [XhrProgress true 1 4; XhrProgress true 2 4].

(** Scripts whose rendering of the answer fails. *)
Definition broken_rendering : Exn := mkExn "TypeError" "data is null".

Definition failing_scripts : Scripts := {|
  validateQuestion := fun q =>
    mkValidation (nonempty q) (VString "Please enter a question");
  answerMarkup := fun _ _ _ => Throw broken_rendering
|}.

Definition a_form : QueryForm := mkQueryForm (asking "hi" false) false.

End MoreExamples.

(** * Properties *)

Arguments js s : simpl never.
Arguments of_N n : simpl never.
Arguments trim s : simpl never.
Arguments ClassList.add token l : simpl never.
Arguments ClassList.remove token l : simpl never.

Import Examples.

(** ** Strings and values *)

Lemma str_eqb_refl (s : jsstring) : str_eqb s s = true.
Proof.
  induction s as [|c s IH]; simpl; [reflexivity|].
  now rewrite N.eqb_refl, IH.
Qed.

Lemma str_eqb_eq (a b : jsstring) : str_eqb a b = true <-> a = b.
Proof.
  split.
  - revert b; induction a as [|x a IH]; intros [|y b] E; simpl in E;
      try discriminate; [reflexivity|].
    apply andb_true_iff in E as [Exy Eab].
    apply N.eqb_eq in Exy. apply IH in Eab. congruence.
  - intros ->. apply str_eqb_refl.
Qed.

Lemma str_eqb_neq (a b : jsstring) : str_eqb a b = false <-> a <> b.
Proof.
  rewrite <- str_eqb_eq. destruct (str_eqb a b); intuition congruence.
Qed.

Lemma truthy_not_null (v : value) : truthy v = true -> is_null v = false.
Proof. destruct v; simpl; intros E; congruence. Qed.

(** ** The class list *)

Lemma contains_In (l : list jsstring) (t : jsstring) :
  ClassList.contains l t = true <-> In t l.
Proof.
  unfold ClassList.contains. rewrite existsb_exists. split.
  - intros (x & Hx & E). apply str_eqb_eq in E. now subst.
  - intros Hin. exists t. split; [assumption | apply str_eqb_refl].
Qed.

Lemma In_add (t x : jsstring) (l : list jsstring) :
  In t (ClassList.add x l) <-> t = x \/ In t l.
Proof.
  unfold ClassList.add. destruct (ClassList.contains l x) eqn:E.
  - apply contains_In in E. intuition (subst; assumption).
  - rewrite in_app_iff. simpl. intuition congruence.
Qed.

Lemma In_remove (t x : jsstring) (l : list jsstring) :
  In t (ClassList.remove x l) <-> t <> x /\ In t l.
Proof.
  unfold ClassList.remove. rewrite filter_In, negb_true_iff, str_eqb_neq.
  intuition congruence.
Qed.

(** C7.  After the [input] listener has run on a question of length L,
    whatever classes the counter carried before, it carries the warning class
    iff 900 < L <= 950, the danger class iff L > 950, and neither of them
    iff L <= 900. *)
Theorem charCounter_classes (page : Page) (tr : list Event) :
  let L := N.of_nat (List.length (questionInput_value page)) in
  let (c, w') := questionInput_oninput (mkWorld page tr) in
  let classes := charCounter_classList (ui w') in
  c = Normal tt
  /\ (In (js "warning") classes <-> 900 < L <= 950)
  /\ (In (js "danger") classes <-> 950 < L)
  /\ (~ In (js "warning") classes /\ ~ In (js "danger") classes <-> L <= 900).
Proof.
  intros L. unfold questionInput_oninput, bind, get_ui, modify_ui. cbn.
  fold L.
  assert (Hwd : js "warning" <> js "danger") by discriminate.
  assert (Hdw : js "danger" <> js "warning") by discriminate.
  clearbody L.
  destruct (N.ltb_spec 900 L) as [E900|E900];
    destruct (N.ltb_spec 950 L) as [E950|E950]; cbn;
    repeat rewrite ?In_add, ?In_remove;
    (split; [reflexivity|]); intuition (try lia; try congruence).
Qed.

(** The counter at the two thresholds and just above them. *)
Example charCounter_thresholds :
  map (fun n => charCounter_classList
                  (ui (snd (questionInput_oninput (mkWorld (typed n) [])))))
    [900; 901; 950; 951]%nat
  = [[]; [js "warning"]; [js "warning"]; [js "danger"]].
Proof. vm_compute. reflexivity. Qed.

(** ** The client *)

Lemma first_truthy_truthy vs fallback :
  truthy fallback = true -> truthy (first_truthy vs fallback) = true.
Proof.
  intros Hf. induction vs as [|v vs IH]; simpl; [assumption|].
  destruct (truthy v) eqn:E; assumption.
Qed.

Section ClientFacts.
Context {H : Host} {U : Type}.
Variable net : Transport.
Variable baseURL : jsstring.

Lemma get_field_field (v : value) (p : jsstring) :
  nullish v = false -> get_field v p = Normal (field v p).
Proof. destruct v; simpl; intros E; congruence. Qed.

Lemma get_field_nullish (v : value) (p : jsstring) :
  nullish v = true -> get_field v p = Throw (TypeError_nullish p).
Proof. destruct v; simpl; intros E; congruence. Qed.

Lemma error_chain_run (body : value) (fallback : jsstring) (w : World U) :
  js_or (lift (get_field body "error"))
    (js_or (lift (get_field body "message"))
       (js_or (lift (get_field body "detail"))
          (ret (VString fallback)))) w
  = (raised (extract_error body fallback), w).
Proof.
  unfold extract_error, js_or, bind, lift, ret.
  destruct (nullish body) eqn:En.
  - now rewrite get_field_nullish.
  - rewrite !get_field_field by assumption. simpl.
    destruct (truthy (field body "error")); [reflexivity|].
    destruct (truthy (field body "message")); [reflexivity|].
    destruct (truthy (field body "detail")); reflexivity.
Qed.

Lemma extract_error_truthy (body : value) (fallback : jsstring) (v : value) :
  nonempty fallback = true ->
  extract_error body fallback = Normal v -> truthy v = true.
Proof.
  unfold extract_error. intros Hf. destruct (nullish body); [discriminate|].
  intros [= <-].
  exact (first_truthy_truthy
           [field body "error"; field body "message"; field body "detail"]
           (VString fallback) Hf).
Qed.

Lemma text_branch_run (response : Response) (w : World U) :
  text_branch response w =
  (match response_text response with
   | Throw e => Throw e
   | Normal text =>
       Normal (if negb (ok response)
               then mkResult VNull
                      (VString (if nonempty text then text
                                else http_status_line response))
               else mkResult (VString text) VNull)
   end, w).
Proof.
  unfold text_branch, bind, lift, ret.
  destruct (response_text response); [|reflexivity].
  destruct (negb (ok response)); reflexivity.
Qed.

Lemma json_branch_run (response : Response) (w : World U) :
  json_branch response w =
  (match response_json response with
   | Throw e => Throw e
   | Normal body =>
       if negb (ok response) then
         match extract_error body (http_status_line response) with
         | Normal err => Normal (mkResult VNull err)
         | Throw e => Throw e
         end
       else Normal (mkResult body VNull)
   end, w).
Proof.
  unfold json_branch, bind at 1, lift at 1.
  destruct (response_json response) as [body|e]; [|reflexivity].
  simpl. destruct (negb (ok response)); [|reflexivity].
  unfold bind at 1. rewrite error_chain_run.
  destruct (extract_error body (http_status_line response)); reflexivity.
Qed.

Lemma request_failed_run (e : Exn) (w : World U) :
  request_failed e w =
  (Normal (mkResult VNull
             (VString (if nonempty (message e) then message e
                       else "Network error. Please check your connection."))),
   sent w (EvConsoleError "API request failed:" e)).
Proof.
  unfold request_failed, js_or, bind, emit, lift, ret, sent. simpl.
  destruct (nonempty (message e)); reflexivity.
Qed.

Lemma request_run (endpoint : jsstring) (options : Options) (w : World U) :
  request net baseURL endpoint options w =
  let w1 := sent w (EvFetch (fetch_args baseURL endpoint options)) in
  match fetch net (fetch_args baseURL endpoint options) with
  | Throw e => request_failed e w1
  | Normal response =>
      try_catch (if non_json (content_type response)
                 then text_branch response else json_branch response)
        (@request_failed H U) w1
  end.
Proof.
  unfold request, try_catch, bind, js_fetch, emit, lift, sent. simpl.
  destruct (fetch net (fetch_args baseURL endpoint options)); reflexivity.
Qed.

(** Closing steps of the cases of [request]: it returns without a trace of
    its own, or from its [catch] block after logging [e]. *)
Ltac returns_quietly :=
  eexists; repeat split; exists []; split; reflexivity.

Ltac returns_from_catch e :=
  rewrite request_failed_run; eexists; repeat split;
  exists [EvConsoleError "API request failed:" e]; unfold sent; simpl;
  rewrite <- app_assoc; split; reflexivity.

Lemma request_returns (endpoint : jsstring) (options : Options)
    (w : World U) :
  exists w',
    request net baseURL endpoint options w =
    (Normal (request_outcome
               (fetch net (fetch_args baseURL endpoint options))), w')
    /\ ui w' = ui w
    /\ exists log,
        trace w' = trace w ++ EvFetch (fetch_args baseURL endpoint options)
                                :: log
        /\ forallb passive log = true.
Proof.
  rewrite request_run. unfold request_outcome.
  destruct (fetch net (fetch_args baseURL endpoint options))
    as [response|e]; cbv zeta; [|returns_from_catch e].
  unfold try_catch.
  destruct (non_json (content_type response)).
  - rewrite text_branch_run.
    destruct (response_text response) as [text|e]; [|returns_from_catch e].
    destruct (ok response); simpl; returns_quietly.
  - rewrite json_branch_run.
    destruct (response_json response) as [body|e]; [|returns_from_catch e].
    destruct (ok response); simpl; [returns_quietly|].
    destruct (extract_error body (http_status_line response)) as [err|e];
      [returns_quietly | returns_from_catch e].
Qed.

Lemma failed_truthy (e : Exn) (fallback : string) :
  nonempty fallback = true ->
  truthy (VString (if nonempty (message e) then message e else fallback))
  = true.
Proof. intros Hf. simpl. destruct (nonempty (message e)) eqn:E; auto. Qed.

Lemma request_outcome_shape (c : Completion Response) :
  success_or_failure (request_outcome c).
Proof.
  unfold request_outcome, success_or_failure.
  destruct c as [response|e]; cbv zeta;
    [|right; split; [reflexivity | now apply failed_truthy]].
  destruct (non_json (content_type response)).
  - destruct (response_text response) as [text|e];
      [|right; split; [reflexivity | now apply failed_truthy]].
    destruct (ok response); [left; reflexivity|].
    right; split; [reflexivity|]. simpl.
    destruct (nonempty text) eqn:E; [assumption | reflexivity].
  - destruct (response_json response) as [body|e];
      [|right; split; [reflexivity | now apply failed_truthy]].
    destruct (ok response); [left; reflexivity|].
    destruct (extract_error body (http_status_line response)) as [err|e] eqn:E;
      [|right; split; [reflexivity | now apply failed_truthy]].
    right; split; [reflexivity|]. simpl.
    eapply extract_error_truthy; [|exact E]. reflexivity.
Qed.

Lemma request_outcome_null_data (c : Completion Response) :
  error (request_outcome c) = VNull ->
  data (request_outcome c) = VNull ->
  exists response,
    c = Normal response /\ ok response = true
    /\ non_json (content_type response) = false
    /\ response_json response = Normal VNull.
Proof.
  unfold request_outcome.
  destruct c as [response|e]; cbv zeta; [|discriminate].
  destruct (non_json (content_type response)) eqn:Ect.
  - destruct (response_text response) as [text|e]; [|discriminate].
    destruct (ok response); discriminate.
  - destruct (response_json response) as [body|e] eqn:Ej; [|discriminate].
    destruct (ok response) eqn:Eok.
    + simpl. intros _ ->. exists response.
      repeat split; assumption || reflexivity.
    + destruct (extract_error body (http_status_line response)) as [err|e] eqn:E;
        [|discriminate].
      simpl. intros ->. apply extract_error_truthy in E; [|reflexivity].
      discriminate.
Qed.

(** *** uploadDocument *)

Lemma on_load_run (xhr_status : N) (responseText : jsstring) (w : World U) :
  on_load xhr_status responseText w
  = (Normal (load_outcome xhr_status responseText), w).
Proof.
  unfold on_load, load_outcome, try_catch.
  destruct ((200 <=? xhr_status) && (xhr_status <? 300)).
  - unfold bind, lift, ret.
    destruct (JSON_parse responseText); reflexivity.
  - unfold bind at 1, lift at 1.
    destruct (JSON_parse responseText) as [body|e]; [|reflexivity].
    cbn [raised]. unfold bind at 1. rewrite error_chain_run.
    destruct (extract_error body _); reflexivity.
Qed.

Lemma load_outcome_shape (xhr_status : N) (responseText : jsstring) :
  success_or_failure (load_outcome xhr_status responseText).
Proof.
  unfold load_outcome, success_or_failure.
  destruct (JSON_parse responseText) as [body|e];
    [|right; split; reflexivity].
  destruct ((200 <=? xhr_status) && (xhr_status <? 300));
    [left; reflexivity|].
  destruct (extract_error body _) as [err|e] eqn:E;
    [|right; split; reflexivity].
  right; split; [reflexivity|]. simpl.
  eapply extract_error_truthy; [|exact E]. reflexivity.
Qed.

Lemma on_progress_returns (onProgress : option (Callback U number))
    (lengthComputable : bool) (loaded total : N) (w : World U) :
  exists w', on_progress onProgress lengthComputable loaded total w
             = (Normal tt, w').
Proof.
  unfold on_progress. destruct onProgress as [cb|]; [|eexists; reflexivity].
  destruct lengthComputable; [|eexists; reflexivity].
  unfold bind, emit, try_catch, invoke, ret. simpl.
  destruct (cb _ _) as [[[]|e] u']; eexists; reflexivity.
Qed.

Lemma deliver_run (onProgress : option (Callback U number))
    (settled : option Result) (ev : XhrEvent) (w : World U) :
  exists w', deliver onProgress settled ev w = (Normal (settle settled ev), w').
Proof.
  destruct ev as [lc loaded total|st text| |]; simpl.
  - unfold bind.
    destruct (on_progress_returns onProgress lc loaded total w) as [w' ->].
    eexists; reflexivity.
  - unfold bind. rewrite on_load_run. eexists; reflexivity.
  - eexists; reflexivity.
  - eexists; reflexivity.
Qed.

Lemma deliver_all_run (onProgress : option (Callback U number))
    (evs : list XhrEvent) (settled : option Result) (w : World U) :
  exists w', deliver_all onProgress settled evs w
             = (Normal (fold_left settle evs settled), w').
Proof.
  revert settled w. induction evs as [|ev evs IH]; intros settled w; simpl.
  - eexists; reflexivity.
  - unfold bind.
    destruct (deliver_run onProgress settled ev w) as [w1 ->].
    apply IH.
Qed.

Lemma deliver_all_trace (onProgress : option (Callback U number))
    (evs : list XhrEvent) :
  forall (settled : option Result) (w : World U),
    trace (snd (deliver_all onProgress settled evs w))
    = trace w
      ++ map EvOnProgress
           (match onProgress with
            | Some _ => computable_progress evs
            | None => []
            end).
Proof.
  induction evs as [|ev evs IH]; intros settled w.
  - simpl. destruct onProgress; now rewrite app_nil_r.
  - simpl deliver_all. unfold bind at 1.
    destruct ev as [lc loaded total|st text| |].
    + simpl deliver. unfold bind at 1, on_progress.
      destruct onProgress as [cb|].
      * destruct lc.
        -- unfold bind at 1, emit, try_catch, invoke, ret. simpl.
           destruct (cb _ _) as [[[]|e] u']; rewrite IH; simpl;
             now rewrite <- app_assoc.
        -- unfold ret at 1. simpl. now rewrite IH.
      * unfold ret at 1. simpl. now rewrite IH.
    + simpl deliver. unfold bind at 1. rewrite on_load_run. simpl.
      rewrite IH. destruct onProgress; reflexivity.
    + simpl. rewrite IH. destruct onProgress; reflexivity.
    + simpl. rewrite IH. destruct onProgress; reflexivity.
Qed.

(** Events follow an upload only when it was sent. *)
Lemma xhr_events_sent (req : Request) (pre post : list XhrEvent)
    (ev : XhrEvent) :
  xhr_events net req = pre ++ ev :: post ->
  xhr net req = Normal (xhr_events net req).
Proof.
  unfold xhr_events. destruct (xhr net req) as [evs|e]; [reflexivity|].
  intros E. destruct pre; discriminate.
Qed.

Lemma uploadDocument_run (file : File)
    (onProgress : option (Callback U number)) (w : World U) :
  match xhr net (upload_args baseURL file) with
  | Throw e =>
      uploadDocument net baseURL file onProgress w = (Throw e, w)
  | Normal evs =>
      exists w',
        uploadDocument net baseURL file onProgress w
        = (Normal (fold_left settle evs None), w')
        /\ exists log,
            trace w' = trace w ++ EvXhrSend (upload_args baseURL file) :: log
  end.
Proof.
  unfold uploadDocument.
  destruct (xhr net (upload_args baseURL file)) as [evs|e]; [|reflexivity].
  unfold bind, emit.
  match goal with
  | |- context [deliver_all onProgress None evs ?w1] =>
      destruct (deliver_all_run onProgress evs None w1) as (w' & Hrun);
      pose proof (deliver_all_trace onProgress evs None w1) as Htr
  end.
  exists w'. split; [exact Hrun|]. rewrite Hrun in Htr. simpl in Htr.
  eexists. rewrite Htr, <- app_assoc. reflexivity.
Qed.

Lemma uploadDocument_sent (file : File)
    (onProgress : option (Callback U number)) (w : World U) :
  xhr net (upload_args baseURL file)
  = Normal (xhr_events net (upload_args baseURL file)) ->
  exists w',
    uploadDocument net baseURL file onProgress w
    = (Normal (fold_left settle
                 (xhr_events net (upload_args baseURL file)) None), w').
Proof.
  intros Hsent. pose proof (uploadDocument_run file onProgress w) as Hrun.
  rewrite Hsent in Hrun. destruct Hrun as (w' & Hrun & _).
  exists w'. exact Hrun.
Qed.

Lemma settle_settled (evs : list XhrEvent) (r : Result) :
  fold_left settle evs (Some r) = Some r.
Proof.
  induction evs as [|ev evs IH]; simpl; [reflexivity|].
  destruct ev; simpl; exact IH.
Qed.

(** The events before the first terminal one leave the promise pending;
    the first terminal event settles it for good. *)
Lemma settle_first_terminal (pre post : list XhrEvent) (ev : XhrEvent) :
  forallb (fun e => negb (terminal e)) pre = true ->
  terminal ev = true ->
  fold_left settle (pre ++ ev :: post) None = settle None ev.
Proof.
  intros Hpre Hev. rewrite fold_left_app. simpl.
  assert (E : fold_left settle pre None = None).
  { induction pre as [|p pre IH]; simpl in *; [reflexivity|].
    apply andb_true_iff in Hpre as [Hp Hpre].
    destruct p; simpl in *; try discriminate. now apply IH. }
  rewrite E. destruct ev; simpl in *; try discriminate;
    apply settle_settled.
Qed.

Lemma first_terminal (evs : list XhrEvent) :
  existsb terminal evs = true ->
  exists pre ev post,
    evs = pre ++ ev :: post
    /\ forallb (fun e => negb (terminal e)) pre = true
    /\ terminal ev = true.
Proof.
  induction evs as [|e evs IH]; simpl; [discriminate|].
  destruct (terminal e) eqn:Et.
  - intros _. exists [], e, evs. auto.
  - simpl. intros Hex. destruct (IH Hex) as (pre & ev & post & -> & Hpre & Hev).
    exists (e :: pre), ev, post. simpl. rewrite Et. auto.
Qed.

Lemma settle_pending (evs : list XhrEvent) :
  existsb terminal evs = false -> fold_left settle evs None = None.
Proof.
  induction evs as [|e evs IH]; simpl; [reflexivity|].
  intros Hex. apply orb_false_iff in Hex as [He Hex].
  destruct e; simpl in *; try discriminate. now apply IH.
Qed.

(** *** queryStream *)

Lemma stream_failed_run (e : Exn) (w : World U) :
  stream_failed e w =
  (Normal (mkResult VNull
             (VString (if nonempty (message e) then message e
                       else "Streaming failed. Please try again."))),
   sent w (EvConsoleError "Streaming query failed:" e)).
Proof.
  unfold stream_failed, js_or, bind, emit, lift, ret, sent. simpl.
  destruct (nonempty (message e)); reflexivity.
Qed.

(** The loop invokes the callback on the decoded chunks, one after the
    other, and what it returns is the text it started with followed by
    all of them. *)
Lemma read_loop_calls (cb : Callback U jsstring) (pending : list (list byte))
    (failure : option Exn) :
  forall (decoder : TextDecoder) (fullText : jsstring) (w : World U)
         (c : Outcome Thrown jsstring) (w' : World U),
    read_loop (Some cb) decoder pending failure fullText w = (c, w') ->
    exists calls,
      trace w' = trace w ++ map EvOnChunk calls
      /\ forall text, c = Normal text ->
                      text = fullText ++ List.concat calls.
Proof.
  induction pending as [|value pending IH];
    intros decoder fullText w c w' Hrun; simpl in Hrun.
  - exists []. simpl. rewrite app_nil_r.
    destruct failure; inversion Hrun; subst; split; try reflexivity.
    + intros text [=].
    + intros text [= <-]. now rewrite app_nil_r.
  - destruct (decode decoder value) as [chunk decoder'].
    unfold bind at 1 in Hrun. unfold bind at 1 in Hrun.
    unfold emit, invoke in Hrun. simpl in Hrun.
    destruct (cb chunk (ui w)) as [[[]|e] u'].
    + apply IH in Hrun as (calls & Htr & Htext). simpl in Htr.
      exists (chunk :: calls). split.
      * rewrite Htr, <- app_assoc. reflexivity.
      * intros text Hc. rewrite (Htext text Hc). simpl.
        now rewrite app_assoc.
    + inversion Hrun; subst. exists [chunk]. simpl. split; [reflexivity|].
      intros text [=].
Qed.

(** Without a callback the loop leaves the world as it is. *)
Lemma read_loop_silent (pending : list (list byte)) (failure : option Exn) :
  forall (decoder : TextDecoder) (fullText : jsstring) (w : World U),
    snd (read_loop None decoder pending failure fullText w) = w.
Proof.
  induction pending as [|value pending IH]; intros decoder fullText w;
    simpl.
  - destruct failure; reflexivity.
  - destruct (decode decoder value) as [chunk decoder'].
    unfold bind at 1, ret at 1. apply IH.
Qed.

(** When the stream ends normally and the callback returns each time, the
    loop returns. *)
Lemma read_loop_completes (onChunk : option (Callback U jsstring))
    (pending : list (list byte)) :
  (forall cb chunk u, onChunk = Some cb -> fst (cb chunk u) = Normal tt) ->
  forall (decoder : TextDecoder) (fullText : jsstring) (w : World U),
    exists text w',
      read_loop onChunk decoder pending None fullText w = (Normal text, w').
Proof.
  intros Hcb. induction pending as [|value pending IH];
    intros decoder fullText w; simpl.
  - eexists _, _; reflexivity.
  - destruct (decode decoder value) as [chunk decoder'].
    unfold bind at 1. destruct onChunk as [cb|].
    + unfold bind at 1, emit, invoke. simpl.
      specialize (Hcb cb chunk (ui w) eq_refl).
      destruct (cb chunk (ui w)) as [c u']. simpl in Hcb. subst c.
      apply IH.
    + unfold ret at 1. apply IH.
Qed.

Lemma queryStream_run (question : jsstring)
    (onChunk : option (Callback U jsstring)) (w : World U) :
  queryStream net baseURL question onChunk w =
  let w1 := sent w (EvFetch (stream_args baseURL question)) in
  match fetch net (stream_args baseURL question) with
  | Throw e => stream_failed e w1
  | Normal response =>
      if ok response then
        match body response with
        | None => stream_failed (TypeError_nullish "getReader") w1
        | Some stream =>
            match read_loop onChunk new_TextDecoder (chunks stream)
                    (failure stream) [] w1 with
            | (Normal fullText, w2) =>
                (Normal (mkResult (VString fullText) VNull), w2)
            | (Throw e, w2) => stream_failed e w2
            end
        end
      else
        match response_text response with
        | Throw e => stream_failed e w1
        | Normal errorText =>
            (Normal (mkResult VNull
                       (VString (if nonempty errorText then errorText
                                 else http_status_line response))), w1)
        end
  end.
Proof.
  unfold queryStream, try_catch, bind at 1, js_fetch, bind at 1, emit, lift,
    sent. cbn [ui trace].
  destruct (fetch net (stream_args baseURL question)) as [response|e];
    [|reflexivity].
  cbn [raised]. destruct (ok response); cbn [negb].
  - destruct (body response) as [stream|]; [|reflexivity].
    unfold bind.
    destruct (read_loop onChunk new_TextDecoder (chunks stream)
                (failure stream) [] _) as [[fullText|e] w2]; reflexivity.
  - unfold bind, lift. destruct (response_text response); reflexivity.
Qed.

(** The [catch] block of [queryStream], whatever was thrown: reading
    [message] of [null] or [undefined] throws in its turn. *)
Lemma stream_failed_thrown (t : Thrown) (w : World U) :
  stream_failed t w =
  (match message_of t with
   | Normal m =>
       Normal (mkResult VNull
                 (if truthy m then m
                  else VString "Streaming failed. Please try again."))
   | Throw e => Throw e
   end,
   sent w (EvConsoleError "Streaming query failed:" t)).
Proof.
  unfold stream_failed, js_or, bind, emit, lift, ret, sent. cbn [ui trace].
  destruct (message_of t) as [m|e]; [|reflexivity]. cbn [raised].
  destruct (truthy m); reflexivity.
Qed.


(** What the loop throws: what the stream failed with, or what the callback
    threw. *)
Lemma read_loop_thrown (onChunk : option (Callback U jsstring))
    (pending : list (list byte)) (failure : option Exn) :
  forall (decoder : TextDecoder) (fullText : jsstring) (w w' : World U)
         (t : Thrown),
    read_loop onChunk decoder pending failure fullText w = (Throw t, w') ->
    (exists e, t = ErrorObject e)
    \/ (exists cb chunk u,
           onChunk = Some cb /\ fst (cb chunk u) = Throw t).
Proof.
  induction pending as [|value pending IH];
    intros decoder fullText w w' t Hrun; simpl in Hrun.
  - destruct failure as [e|]; inversion Hrun; subst. left. eauto.
  - destruct (decode decoder value) as [chunk decoder'].
    unfold bind at 1 in Hrun. destruct onChunk as [cb|].
    + unfold bind at 1, emit, invoke in Hrun. cbn [ui trace] in Hrun.
      destruct (cb chunk (ui w)) as [[[]|e] u'] eqn:Ecb.
      * eapply IH; exact Hrun.
      * inversion Hrun; subst. right. exists cb, chunk, (ui w).
        rewrite Ecb. auto.
    + unfold ret at 1 in Hrun. eapply IH; exact Hrun.
Qed.

(** [queryStream] returns a Result with exactly one non-null field, unless
    its callback throws [null] or [undefined]: then the [catch] block throws
    and the call is rejected. *)
Lemma queryStream_fields (question : jsstring)
    (onChunk : option (Callback U jsstring)) (w : World U) :
  match queryStream net baseURL question onChunk w with
  | (Normal r, _) => exactly_one r = true /\ success_or_failure r
  | (Throw t, _) =>
      t = ErrorObject (TypeError_nullish "message")
      /\ exists cb chunk u v,
           onChunk = Some cb /\ fst (cb chunk u) = Throw (Other v)
           /\ nullish v = true
  end.
Proof.
  rewrite queryStream_run. cbv zeta.
  assert (Hfail : forall (e : Exn) (w1 : World U),
             match stream_failed e w1 with
             | (Normal r, _) => exactly_one r = true /\ success_or_failure r
             | (Throw t, _) =>
                 t = ErrorObject (TypeError_nullish "message")
                 /\ exists cb chunk u v,
                      onChunk = Some cb /\ fst (cb chunk u) = Throw (Other v)
                      /\ nullish v = true
             end).
  { intros e w1. rewrite stream_failed_run.
    split; [reflexivity|]. right.
    split; [reflexivity|]. now apply failed_truthy. }
  destruct (fetch net (stream_args baseURL question)) as [response|e];
    [|apply Hfail].
  destruct (ok response).
  - destruct (body response) as [stream|]; [|apply Hfail].
    destruct (read_loop _ _ _ _ _ _) as [[fullText|t] w2] eqn:Eloop.
    + split; [reflexivity|]. left; reflexivity.
    + apply read_loop_thrown in Eloop as [[e ->]|(cb & chunk & u & Hcb & Ht)];
        [apply Hfail|].
      rewrite stream_failed_thrown. destruct t as [e|v].
      * simpl. split.
        -- destruct (nonempty (message e)); reflexivity.
        -- right. split; [reflexivity|].
           destruct (nonempty (message e)) eqn:E; [exact E | reflexivity].
      * simpl. destruct (nullish v) eqn:En.
        -- rewrite get_field_nullish by exact En. split; [reflexivity|].
           exists cb, chunk, u, v. auto.
        -- rewrite get_field_field by exact En.
           assert (Ht' : truthy (if truthy (field v "message")
                                 then field v "message"
                                 else VString
                                        "Streaming failed. Please try again.")
                         = true).
           { destruct (truthy (field v "message")) eqn:E;
               [exact E | reflexivity]. }
           split.
           ++ unfold exactly_one. simpl.
              now rewrite (truthy_not_null _ Ht').
           ++ right. split; [reflexivity | exact Ht'].
  - destruct (response_text response) as [errorText|e]; [|apply Hfail].
    split; [reflexivity|]. right.
    split; [reflexivity|]. simpl.
    destruct (nonempty errorText) eqn:E; [assumption | reflexivity].
Qed.

(** In particular it returns when its callback throws nothing of the
    kind. *)
Lemma queryStream_returns (question : jsstring)
    (onChunk : option (Callback U jsstring)) (w : World U) :
  (forall cb chunk u v,
      onChunk = Some cb -> fst (cb chunk u) = Throw (Other v) ->
      nullish v = false) ->
  exists r w',
    queryStream net baseURL question onChunk w = (Normal r, w')
    /\ exactly_one r = true /\ success_or_failure r.
Proof.
  intros Hcb. pose proof (queryStream_fields question onChunk w) as Hq.
  destruct (queryStream net baseURL question onChunk w) as [[r|t] w'].
  - exists r, w'. split; [reflexivity | exact Hq].
  - destruct Hq as (_ & cb & chunk & u & v & Hsome & Ht & Hn).
    rewrite (Hcb cb chunk u v Hsome Ht) in Hn. discriminate.
Qed.

(** *** Every method *)

Lemma shape_exactly_one (r : Result) :
  success_or_failure r ->
  exactly_one r = true \/ (data r = VNull /\ error r = VNull).
Proof.
  unfold success_or_failure, exactly_one. destruct r as [d e]; simpl.
  intros [->|[-> Ht]].
  - destruct d; simpl; auto.
  - left. now rewrite (truthy_not_null _ Ht).
Qed.

Lemma load_outcome_null_data (xhr_status : N) (responseText : jsstring) :
  error (load_outcome xhr_status responseText) = VNull ->
  data (load_outcome xhr_status responseText) = VNull ->
  (200 <=? xhr_status) && (xhr_status <? 300) = true
  /\ JSON_parse responseText = Normal VNull.
Proof.
  unfold load_outcome.
  destruct (JSON_parse responseText) as [body|e]; [|discriminate].
  destruct ((200 <=? xhr_status) && (xhr_status <? 300)).
  - simpl. intros _ ->. auto.
  - destruct (extract_error body _) as [err|e] eqn:E; [|discriminate].
    simpl. intros ->. apply extract_error_truthy in E; [|reflexivity].
    discriminate.
Qed.

Lemma request_fields (endpoint : jsstring) (options : Options)
    (w : World U) :
  exists r w',
    request net baseURL endpoint options w = (Normal r, w')
    /\ success_or_failure r
    /\ (exactly_one r = true
        \/ data r = VNull /\ error r = VNull /\ null_payload net w w').
Proof.
  destruct (request_returns endpoint options w)
    as (w' & Hrun & _ & log & Htr & _).
  eexists _, w'. split; [exact Hrun|].
  pose proof (request_outcome_shape
                (fetch net (fetch_args baseURL endpoint options))) as Hs.
  split; [exact Hs|].
  destruct (shape_exactly_one _ Hs) as [Hx|[Hd He]]; [left; exact Hx|].
  right. split; [exact Hd|]. split; [exact He|].
  destruct (request_outcome_null_data _ He Hd)
    as (response & Hf & Hok & Hct & Hj).
  left. exists (fetch_args baseURL endpoint options), response, log. auto.
Qed.

Lemma settle_fields (ev : XhrEvent) (r : Result) :
  settle None ev = Some r ->
  success_or_failure r
  /\ (exactly_one r = true
      \/ data r = VNull /\ error r = VNull
         /\ exists xhr_status responseText,
             ev = XhrLoad xhr_status responseText
             /\ (200 <=? xhr_status) && (xhr_status <? 300) = true
             /\ JSON_parse responseText = Normal VNull).
Proof.
  destruct ev as [lc loaded total|st text| |]; simpl; intros [= <-].
  - pose proof (load_outcome_shape st text) as Hs. split; [exact Hs|].
    destruct (shape_exactly_one _ Hs) as [Hx|[Hd He]]; [left; exact Hx|].
    right. split; [exact Hd|]. split; [exact He|].
    exists st, text. split; [reflexivity|].
    now apply load_outcome_null_data.
  - split; [right; split; reflexivity | left; reflexivity].
  - split; [right; split; reflexivity | left; reflexivity].
Qed.

End ClientFacts.

Section ClientTheorems.
Context {H : Host} {U : Type}.
Variable net : Transport.
Variable baseURL : jsstring.

(** C1 (as amended).  A call of a method of the client returns a Result in
    which either [error] is null, or [data] is null and [error] is not:
    never both non-null.  Exactly one of the two is non-null unless the
    answer to this very call is a success whose JSON body is [null], which
    [request], its wrappers and [uploadDocument] pass on as [data] next to
    a null [error]; [queryStream] always returns exactly one non-null
    field.  The promise of [uploadDocument] stays pending while no terminal
    event arrives.  The only calls that return no Result are an upload
    whose [xhr.open] throws and a [queryStream] whose callback throws
    [null] or [undefined]. *)
Theorem client_result_fields (call : Call) (w : World U) :
  match perform net baseURL call w with
  | (Normal (Some r), w') =>
      success_or_failure r
      /\ (exactly_one r = true
          \/ data r = VNull /\ error r = VNull
             /\ null_payload net w w' /\ is_stream call = false)
  | (Normal None, _) =>
      exists file onProgress evs,
        call = CallUploadDocument file onProgress
        /\ xhr net (upload_args baseURL file) = Normal evs
        /\ existsb terminal evs = false
  | (Throw t, _) =>
      (exists file onProgress e,
          call = CallUploadDocument file onProgress
          /\ xhr net (upload_args baseURL file) = Throw e
          /\ t = ErrorObject e)
      \/ (exists question onChunk chunk u v,
             call = CallQueryStream question (Some onChunk)
             /\ fst (onChunk chunk u) = Throw (Other v)
             /\ nullish v = true
             /\ t = ErrorObject (TypeError_nullish "message"))
  end.
Proof.
  assert (Hreq : forall endpoint options,
             exists r w',
               (r <- request net baseURL endpoint options ;;
                ret (Some r)) w = (Normal (Some r), w')
               /\ success_or_failure r
               /\ (exactly_one r = true
                   \/ data r = VNull /\ error r = VNull
                      /\ null_payload net w w' /\ false = false)).
  { intros endpoint options. unfold bind.
    destruct (request_fields net baseURL endpoint options w)
      as (r & w' & -> & Hs & Hx).
    exists r, w'. split; [reflexivity|]. split; [exact Hs|].
    destruct Hx as [Hx|(Hd & He & Hn)]; auto. }
  destruct call as [endpoint options|file onProgress| | |q s e|q onChunk|q| |];
    simpl;
    unfold getCollectionInfo, deleteCollection, query, searchDocuments,
      healthCheck, readinessCheck;
    try (match goal with
         | |- context [request net baseURL ?e ?o] =>
             destruct (Hreq e o) as (r & w' & -> & Hs & Hx)
         end; split; assumption).
  - pose proof (uploadDocument_run net baseURL file onProgress w) as Hrun.
    destruct (xhr net (upload_args baseURL file)) as [evs|e] eqn:Exhr.
    + destruct Hrun as (w' & -> & log & Htr).
      destruct (existsb terminal evs) eqn:Ex.
      * destruct (first_terminal _ Ex) as (pre & ev & post & Hev & Hpre & Ht).
        rewrite Hev, (settle_first_terminal _ _ _ Hpre Ht).
        destruct (settle None ev) as [r|] eqn:Es;
          [|destruct ev; discriminate].
        destruct (settle_fields _ _ Es) as [Hs Hx]. split; [exact Hs|].
        destruct Hx as [Hx|(Hd & He & st & text & -> & H2xx & Hp)];
          [left; exact Hx|].
        right. repeat split; try assumption. right.
        exists (upload_args baseURL file), pre, st, text, post, log.
        rewrite Exhr, Hev. auto.
      * rewrite (settle_pending _ Ex). exists file, onProgress, evs. auto.
    + rewrite Hrun. left. exists file, onProgress, e. auto.
  - unfold bind.
    pose proof (queryStream_fields net baseURL q onChunk w) as Hq.
    destruct (queryStream net baseURL q onChunk w) as [[r|t] w'].
    + destruct Hq as [Hx Hs]. simpl. auto.
    + destruct Hq as (-> & cb & chunk & u & v & -> & Ht & Hn).
      right. exists q, cb, chunk, u, v. auto.
Qed.

(** C2 (as amended).  For a non-2xx response that [request] parses as
    JSON and whose body is not [null], the error of the Result is the first
    truthy one among the body's [error], [message] and [detail] fields (a
    field that is absent, empty, null, false or zero is passed over), and
    the string "HTTP <status>: <statusText>" when none is. *)
Theorem request_error_extraction (endpoint : jsstring) (options : Options)
    (response : Response) (body : value) (w : World U) :
  fetch net (fetch_args baseURL endpoint options) = Normal response ->
  ok response = false ->
  non_json (content_type response) = false ->
  response_json response = Normal body ->
  nullish body = false ->
  request net baseURL endpoint options w =
  (Normal (mkResult VNull
             (first_truthy
                [field body "error"; field body "message";
                 field body "detail"]
                (VString (js "HTTP " ++ of_N (status response) ++ js ": "
                            ++ statusText response)))),
   sent w (EvFetch (fetch_args baseURL endpoint options))).
Proof.
  intros Hf Hok Hct Hj Hn.
  rewrite request_run, Hf. cbv zeta. unfold try_catch.
  rewrite Hct, json_branch_run, Hj, Hok. simpl negb. cbv iota.
  unfold extract_error. rewrite Hn. reflexivity.
Qed.

(** In particular a body [{"error": "X"}] with a non-empty X yields X. *)
Lemma error_field_first (body : value) (x : jsstring) (fallback : value) :
  field body "error" = VString x -> nonempty x = true ->
  first_truthy [field body "error"; field body "message";
                field body "detail"] fallback = VString x.
Proof. intros -> Hx. simpl. now rewrite Hx. Qed.


(** A 2xx response whose body arrives to the end, read with a callback
    that returns each time, makes [queryStream] return without error. *)
Lemma queryStream_completes (question : jsstring)
    (onChunk : option (Callback U jsstring)) (response : Response)
    (stream : BodyStream) (w : World U) :
  fetch net (stream_args baseURL question) = Normal response ->
  ok response = true ->
  body response = Some stream ->
  failure stream = None ->
  (forall cb chunk u, onChunk = Some cb -> fst (cb chunk u) = Normal tt) ->
  exists fullText w',
    queryStream net baseURL question onChunk w
    = (Normal (mkResult (VString fullText) VNull), w').
Proof.
  intros Hf Hok Hb Hend Hcb. rewrite queryStream_run, Hf. cbv zeta.
  rewrite Hok, Hb, Hend.
  destruct (read_loop_completes onChunk (chunks stream) Hcb
              new_TextDecoder []
              (sent w (EvFetch (stream_args baseURL question))))
    as (text & w' & ->).
  eexists _, _; reflexivity.
Qed.

(** C4 (as amended).  When the initial response of [queryStream] has a
    non-2xx status, the method returns a Result whose [data] is null without
    invoking [onChunk]; when the body can be read, [error] is the body text
    if that text is not empty and "HTTP <status>: <statusText>" if it is. *)
Theorem queryStream_error_response (question : jsstring)
    (onChunk : option (Callback U jsstring)) (response : Response)
    (w : World U) :
  fetch net (stream_args baseURL question) = Normal response ->
  ok response = false ->
  exists r w',
    queryStream net baseURL question onChunk w = (Normal r, w')
    /\ ui w' = ui w
    /\ onChunk_calls (trace w') = onChunk_calls (trace w)
    /\ data r = VNull
    /\ forall errorText,
         response_text response = Normal errorText ->
         error r = VString (if nonempty errorText then errorText
                            else js "HTTP " ++ of_N (status response)
                                 ++ js ": " ++ statusText response).
Proof.
  intros Hf Hok. rewrite queryStream_run, Hf. cbv zeta. rewrite Hok.
  destruct (response_text response) as [errorText|e].
  - eexists _, _. split; [reflexivity|]. simpl. split; [reflexivity|].
    split.
    + unfold onChunk_calls. rewrite flat_map_app. simpl.
      now rewrite app_nil_r.
    + split; [reflexivity|]. now intros ? [= <-].
  - rewrite stream_failed_run. eexists _, _. split; [reflexivity|]. simpl.
    split; [reflexivity|]. split.
    + unfold onChunk_calls. rewrite !flat_map_app. simpl.
      now rewrite !app_nil_r.
    + split; [reflexivity|]. intros ? [=].
Qed.


(** C8.  A response without a content-type header is parsed as JSON, the
    text branch being taken only for a header that is present and does not
    include "application/json"; so a 2xx response without the header whose
    body text is not JSON yields an error Result, [data] being null and not
    the body text. *)
Theorem request_without_content_type (endpoint : jsstring)
    (options : Options) (response : Response) (w : World U) :
  fetch net (fetch_args baseURL endpoint options) = Normal response ->
  content_type response = None ->
  request net baseURL endpoint options w
  = try_catch (json_branch response) (@request_failed H U)
      (sent w (EvFetch (fetch_args baseURL endpoint options)))
  /\ (forall contentType,
        non_json contentType = true ->
        exists ct, contentType = Some ct
                   /\ includes ct "application/json" = false)
  /\ (forall text e,
        ok response = true ->
        response_text response = Normal text ->
        JSON_parse text = Throw e ->
        request net baseURL endpoint options w
        = (Normal (mkResult VNull
                     (VString
                        (if nonempty (message e) then message e
                         else "Network error. Please check your connection."))),
           sent (sent w (EvFetch (fetch_args baseURL endpoint options)))
             (EvConsoleError "API request failed:" e))).
Proof.
  intros Hf Hct. rewrite request_run, Hf, Hct. cbv zeta. simpl non_json.
  cbv iota. split; [reflexivity|]. split.
  - intros [ct|]; simpl; [|discriminate]. intros Hn.
    apply andb_true_iff in Hn as [_ Hn]. apply negb_true_iff in Hn.
    exists ct. split; [reflexivity | exact Hn].
  - intros text e Hok Ht Hp. unfold try_catch.
    rewrite json_branch_run. unfold response_json. rewrite Ht, Hp.
    apply request_failed_run.
Qed.

(** C9.  When the body of the response to an upload is not valid JSON,
    whatever the status, the promise of [uploadDocument] is resolved with
    [{ data: null, error: 'Failed to parse server response' }]. *)
Theorem uploadDocument_parse_failure (file : File)
    (onProgress : option (Callback U number))
    (pre post : list XhrEvent) (xhr_status : N) (responseText : jsstring)
    (e : Exn) (w : World U) :
  xhr_events net (upload_args baseURL file)
  = pre ++ XhrLoad xhr_status responseText :: post ->
  forallb (fun ev => negb (terminal ev)) pre = true ->
  JSON_parse responseText = Throw e ->
  exists w',
    uploadDocument net baseURL file onProgress w
    = (Normal (Some (mkResult VNull
                       (VString "Failed to parse server response"))), w').
Proof.
  intros Hev Hpre Hp.
  destruct (uploadDocument_sent net baseURL file onProgress w
              (xhr_events_sent net _ _ _ _ Hev)) as (w' & ->).
  exists w'.
  rewrite Hev,
    (settle_first_terminal pre post (XhrLoad xhr_status responseText)
       Hpre eq_refl).
  simpl. unfold load_outcome. now rewrite Hp.
Qed.

End ClientTheorems.

(** C1, counterexample.  A health check answered with status 200 and the
    JSON text [null] returns [{ data: null, error: null }]: neither field is
    non-null. *)
Lemma healthCheck_null_body :
  fst (healthCheck (H := RefHost.host) null_body [] w0)
  = Normal (mkResult VNull VNull)
  /\ exactly_one (mkResult VNull VNull) = false.
Proof. split; vm_compute; reflexivity. Qed.

(** C2, counterexample.  The body of a 500 response has an empty [error]
    field and the [message] field "boom": the error reported is "boom", not
    the [error] field, which is present. *)
Lemma request_empty_error_field :
  response_json (H := RefHost.host) empty_error_field
  = Normal (VObject [(js "error", VString []);
                     (js "message", VString "boom")])
  /\ fst (request (H := RefHost.host) (answering empty_error_field []) []
            "/health" get_options w0)
     = Normal (mkResult VNull (VString "boom"))
  /\ VString "boom"
     <> first_present (VObject [(js "error", VString []);
                                (js "message", VString "boom")])
          "HTTP 500: Internal Server Error".
Proof.
  split; [vm_compute; reflexivity|].
  split; [vm_compute; reflexivity|].
  vm_compute. discriminate.
Qed.

(** C2, at a 404 response whose body has only a [detail] field. *)
Lemma request_error_extraction_witness :
  request (H := RefHost.host) (answering not_found []) [] "/documents/info"
    get_options w0
  = (Normal (mkResult VNull (VString "Collection not found")),
     sent w0 (EvFetch (fetch_args [] "/documents/info" get_options))).
Proof.
  apply (request_error_extraction (H := RefHost.host) (answering not_found [])
           [] "/documents/info" get_options not_found
           (VObject [(js "detail", VString "Collection not found")]) w0);
    vm_compute; reflexivity.
Defined.


(** C4, counterexample.  A 500 response with an empty body: the error is the
    status line, not the body text. *)
Lemma queryStream_empty_error_body :
  response_text (H := RefHost.host) empty_500 = Normal []
  /\ fst (queryStream (H := RefHost.host) (answering empty_500 []) [] "hi"
            None w0)
     = Normal (mkResult VNull (VString "HTTP 500: Internal Server Error"))
  /\ VString "HTTP 500: Internal Server Error" <> VString [].
Proof.
  split; [vm_compute; reflexivity|].
  split; [vm_compute; reflexivity|]. vm_compute. discriminate.
Qed.

(** C4, at a 503 response with the body "overloaded". *)
Lemma queryStream_error_response_witness :
  exists r w',
    queryStream (H := RefHost.host) (answering overloaded []) [] "hi"
      (Some keep) (mkWorld [] []) = (Normal r, w')
    /\ ui w' = []
    /\ onChunk_calls (trace w') = []
    /\ data r = VNull
    /\ forall errorText,
         response_text (H := RefHost.host) overloaded = Normal errorText ->
         error r = VString (if nonempty errorText then errorText
                            else js "HTTP " ++ of_N 503 ++ js ": "
                                 ++ js "Service Unavailable").
Proof.
  apply (queryStream_error_response (H := RefHost.host)
           (answering overloaded []) [] "hi" (Some keep) overloaded
           (mkWorld [] []));
    vm_compute; reflexivity.
Defined.


(** C5, the same upload computed: the promise is resolved with the network
    error although a [load] with status 200 follows. *)
Example uploadDocument_network_error :
  fst (uploadDocument (H := RefHost.host)
         (answering not_found MoreExamples.upload_failed) [] a_file None w0)
  = Normal (Some (mkResult VNull (VString "Network error during upload"))).
Proof. vm_compute. reflexivity. Qed.

(** C8, at a 200 response without content-type whose body is "<html>". *)
Lemma request_without_content_type_witness :
  fst (request (H := RefHost.host) (answering html_page []) [] "/health"
         get_options w0)
  = Normal (mkResult VNull (VString "Unexpected token in JSON")).
Proof.
  destruct (request_without_content_type (H := RefHost.host)
              (answering html_page []) [] "/health" get_options html_page w0
              eq_refl eq_refl) as (_ & _ & Herr).
  rewrite (Herr (js "<html>") RefHost.SyntaxError); reflexivity.
Defined.

(** C9, at an upload answered with status 200 and the body "<html>". *)
Lemma uploadDocument_parse_failure_witness :
  exists w',
    uploadDocument (H := RefHost.host) (answering not_found upload_html) []
      a_file None w0
    = (Normal (Some (mkResult VNull
                       (VString "Failed to parse server response"))), w').
Proof.
  apply (uploadDocument_parse_failure (H := RefHost.host)
           (answering not_found upload_html) [] a_file None
           [XhrProgress true 5 10] [] 200 "<html>" RefHost.SyntaxError w0);
    vm_compute; reflexivity.
Defined.

(** ** The page *)

Lemma fetches_app (a b : list Event) :
  fetches (a ++ b) = fetches a ++ fetches b.
Proof. apply flat_map_app. Qed.

Lemma calls_of_app (fn : jsstring) (a b : list Event) :
  calls_of fn (a ++ b) = calls_of fn a ++ calls_of fn b.
Proof. apply flat_map_app. Qed.

Lemma inert_nil : inert [].
Proof. split; reflexivity. Qed.

Lemma inert_app (a b : list Event) : inert a -> inert b -> inert (a ++ b).
Proof.
  intros [Fa Ca] [Fb Cb]. split.
  - now rewrite fetches_app, Fa, Fb.
  - now rewrite calls_of_app, Ca, Cb.
Qed.

Lemma inert_passive (log : list Event) :
  forallb passive log = true -> inert log.
Proof.
  induction log as [|ev log IH]; simpl; [intros _; apply inert_nil|].
  intros Hp. apply andb_true_iff in Hp as [Hev Hlog].
  destruct (IH Hlog) as [F C].
  destruct ev; simpl in Hev; try discriminate; split; assumption.
Qed.

Lemma inert_call (fn : string) (args : list value) :
  str_eqb fn "validateQuestion" = false -> inert [EvCall fn args].
Proof.
  intros Hfn. split; [reflexivity|]. unfold calls_of. simpl.
  now rewrite Hfn.
Qed.

Section StreamTrace.
Context {H : Host} {U : Type}.
Variable net : Transport.
Variable baseURL : jsstring.

Lemma read_loop_trace (onChunk : option (Callback U jsstring))
    (pending : list (list byte)) (failure : option Exn)
    (decoder : TextDecoder) (fullText : jsstring) (w : World U) :
  exists log,
    trace (snd (read_loop onChunk decoder pending failure fullText w))
    = trace w ++ log
    /\ forallb passive log = true.
Proof.
  destruct onChunk as [cb|].
  - destruct (read_loop (Some cb) decoder pending failure fullText w)
      as [c w'] eqn:E.
    apply read_loop_calls in E as (calls & Htr & _).
    exists (map EvOnChunk calls). split; [exact Htr|].
    clear. induction calls; simpl; auto.
  - rewrite read_loop_silent. exists []. now rewrite app_nil_r.
Qed.

Lemma queryStream_trace (question : jsstring)
    (onChunk : option (Callback U jsstring)) (w : World U) :
  exists log,
    trace (snd (queryStream net baseURL question onChunk w))
    = trace w ++ EvFetch (stream_args baseURL question) :: log
    /\ forallb passive log = true.
Proof.
  rewrite queryStream_run. cbv zeta.
  assert (Hfail : forall e (w1 : World U) log,
             trace w1 = trace w ++ EvFetch (stream_args baseURL question)
                                 :: log ->
             forallb passive log = true ->
             exists log',
               trace (snd (stream_failed e w1))
               = trace w ++ EvFetch (stream_args baseURL question) :: log'
               /\ forallb passive log' = true).
  { intros e w1 log Htr Hp. rewrite stream_failed_thrown. simpl.
    exists (log ++ [EvConsoleError "Streaming query failed:" e]).
    rewrite Htr, <- app_assoc. split; [reflexivity|].
    rewrite forallb_app, Hp. reflexivity. }
  assert (Hw1 : trace (sent w (EvFetch (stream_args baseURL question)))
                = trace w ++ EvFetch (stream_args baseURL question) :: [])
    by reflexivity.
  destruct (fetch net (stream_args baseURL question)) as [response|e];
    [|now apply (Hfail e _ [])].
  destruct (ok response).
  - destruct (body response) as [stream|]; [|now apply (Hfail _ _ [])].
    destruct (read_loop_trace onChunk (chunks stream) (failure stream)
                new_TextDecoder []
                (sent w (EvFetch (stream_args baseURL question))))
      as (log & Htr & Hp).
    destruct (read_loop _ _ _ _ _ _) as [[fullText|e] w2]; simpl in Htr.
    + exists log. simpl. rewrite Htr, <- app_assoc. auto.
    + apply (Hfail e w2 log); [|exact Hp].
      rewrite Htr, <- app_assoc. reflexivity.
  - destruct (response_text response); [|now apply (Hfail _ _ [])].
    exists []. auto.
Qed.

Lemma request_trace (endpoint : jsstring) (options : Options)
    (w : World U) :
  exists r w' log,
    request net baseURL endpoint options w = (Normal r, w')
    /\ trace w' = trace w ++ EvFetch (fetch_args baseURL endpoint options)
                            :: log
    /\ forallb passive log = true.
Proof.
  destruct (request_returns net baseURL endpoint options w)
    as (w' & Hrun & _ & log & Htr & Hlog).
  eexists _, w', log. split; [exact Hrun|]. split; assumption.
Qed.

End StreamTrace.

Section PageTheorems.
Context {H : Host} {scripts : Scripts}.
Variable net : Transport.

(** C6 (as amended).  After a readiness poll the indicator shows: the
    unhealthy dot labelled "Unhealthy" when the call returns an error; when
    it returns data other than null, the healthy dot labelled "Healthy" if
    [status] is "ready" and [qdrant_connected] is truthy, and the unhealthy
    dot labelled "Degraded" otherwise. *)
Theorem updateHealthIndicator_states (page : Page) (tr : list Event)
    (r : Result) (w1 : World Page) :
  readinessCheck net apiClient_baseURL
    (mkWorld (set_healthStatus (StatusDot "checking" "Checking...") page) tr)
  = (Normal r, w1) ->
  (is_null (error r) = false ->
   updateHealthIndicator net (mkWorld page tr)
   = (Normal tt,
      mkWorld (set_healthStatus (StatusDot "unhealthy" "Unhealthy") (ui w1))
        (trace w1)))
  /\ (error r = VNull -> nullish (data r) = false ->
      updateHealthIndicator net (mkWorld page tr)
      = (Normal tt,
         mkWorld
           (set_healthStatus
              (if strict_eq_string (field (data r) "status") "ready"
                  && truthy (field (data r) "qdrant_connected")
               then StatusDot "healthy" "Healthy"
               else StatusDot "unhealthy" "Degraded") (ui w1))
           (trace w1))).
Proof.
  intros Hrun.
  assert (Hs : success_or_failure r).
  { unfold readinessCheck in Hrun.
    destruct (request_returns net apiClient_baseURL "/health/ready"
                (mkOptions (Some (js "GET")) None NoBody)
                (mkWorld (set_healthStatus
                            (StatusDot "checking" "Checking...") page) tr))
      as (w' & Hret & _).
    rewrite Hret in Hrun. inversion Hrun; subst.
    apply request_outcome_shape. }
  split.
  - intros Hnn. destruct Hs as [He|[_ Ht]];
      [rewrite He in Hnn; discriminate|].
    unfold updateHealthIndicator, bind at 1, modify_ui at 1. simpl.
    unfold bind at 1. rewrite Hrun. cbv beta iota.
    rewrite Ht. reflexivity.
  - intros He Hd.
    unfold updateHealthIndicator, bind at 1, modify_ui at 1. simpl.
    unfold bind at 1. rewrite Hrun. cbv beta iota.
    rewrite He. simpl truthy. cbv iota.
    unfold bind at 1, lift at 1.
    rewrite (get_field_field _ _ Hd). cbn [raised].
    destruct (strict_eq_string (field (data r) "status") "ready").
    + unfold bind at 1, lift at 1. rewrite (get_field_field _ _ Hd).
      cbn [raised]. simpl andb.
      destruct (truthy (field (data r) "qdrant_connected")); reflexivity.
    + reflexivity.
Qed.

Lemma handleStandardQuery_trace (question : jsstring)
    (includeSources enableEvaluation : bool) (w : World Page) :
  exists log,
    trace (snd (handleStandardQuery net question includeSources
                  enableEvaluation w))
    = trace w ++ EvFetch (query_args question includeSources
                            enableEvaluation) :: log
    /\ inert log.
Proof.
  unfold handleStandardQuery, bind at 1, modify_ui at 1. cbv beta iota.
  unfold bind at 1, query.
  match goal with
  | |- context [request net ?b ?e ?o ?w1] =>
      destruct (request_trace net b e o w1)
        as (r & w2 & log & Hrun & Htr & Hp)
  end.
  rewrite Hrun. cbv beta iota. simpl in Htr.
  apply inert_passive in Hp.
  destruct (truthy (error r)).
  - unfold bind, modify_ui, call, emit. simpl.
    exists (log ++ [EvCall "showToast" [error r; VString "error"]]).
    rewrite Htr, <- app_assoc. split; [reflexivity|].
    apply inert_app; [exact Hp | now apply inert_call].
  - unfold bind at 1, lift at 1.
    destruct (answerMarkup (data r) includeSources enableEvaluation)
      as [html|e].
    + unfold bind, modify_ui, call, emit. simpl.
      eexists (log ++ [_; _; _]).
      rewrite Htr, <- !app_assoc. split; [reflexivity|].
      apply inert_app; [exact Hp|].
      apply (inert_app [_]); [now apply inert_call|].
      apply (inert_app [_]); now apply inert_call.
    + exists log. split; [exact Htr | exact Hp].
Qed.

(** The callback of [handleStreamingQuery] returns each time. *)
Lemma streaming_onChunk_returns (chunk : jsstring) (st : Page * jsstring) :
  fst (streaming_onChunk chunk st) = Normal tt.
Proof. destruct st as [page fullAnswer]. reflexivity. Qed.

Lemma streaming_onChunk_throws_nothing
    (cb : Callback (Page * jsstring) jsstring) (chunk : jsstring)
    (st : Page * jsstring) (v : value) :
  Some streaming_onChunk = Some cb ->
  fst (cb chunk st) = Throw (Other v) -> nullish v = false.
Proof.
  intros [= <-]. rewrite streaming_onChunk_returns. discriminate.
Qed.

Lemma handleStreamingQuery_trace (question : jsstring) (w : World Page) :
  exists log,
    trace (snd (handleStreamingQuery net question w))
    = trace w ++ EvFetch (stream_args apiClient_baseURL question) :: log
    /\ inert log.
Proof.
  unfold handleStreamingQuery, bind at 1, modify_ui at 1. cbv beta iota.
  unfold bind at 1, with_local.
  match goal with
  | |- context [queryStream net ?b ?q ?cb ?w1] =>
      destruct (queryStream_trace net b q cb w1) as (log & Htr & Hp);
      destruct (queryStream_returns net b q cb w1
                  streaming_onChunk_throws_nothing)
        as (r & w2 & Hrun & _)
  end.
  rewrite Hrun in Htr |- *. cbv beta iota. simpl in Htr.
  apply inert_passive in Hp.
  destruct (truthy (error r)).
  - unfold bind, modify_ui, call, emit. simpl.
    exists (log ++ [EvCall "showToast" [error r; VString "error"]]).
    rewrite Htr, <- app_assoc. split; [reflexivity|].
    apply inert_app; [exact Hp | now apply inert_call].
  - unfold bind at 1, modify_ui at 1. cbv beta iota.
    unfold bind at 1, invoke. simpl ui.
    destruct (remove_badge _) as [[[]|e] page']; simpl.
    + exists (log ++ [EvCall "showToast"
                       [VString "Answer generated successfully";
                        VString "success"]]).
      rewrite Htr, <- app_assoc. split; [reflexivity|].
      apply inert_app; [exact Hp | now apply inert_call].
    + exists log. split; [exact Htr | exact Hp].
Qed.



End PageTheorems.

(** C6, counterexample.  A readiness response with [status] "ready" and the
    string "yes" as [qdrant_connected]: the flag is not [true], so the data
    is among "any other data", yet the indicator shows "Healthy" and not
    "Degraded". *)
Lemma updateHealthIndicator_truthy_flag :
  let r := mkResult (VObject [(js "status", VString "ready");
                              (js "qdrant_connected", VString "yes")]) VNull in
  fst (readinessCheck (H := RefHost.host) (answering ready_yes []) []
         (mkWorld (set_healthStatus (StatusDot "checking" "Checking...")
                     blank_page) []))
  = Normal r
  /\ healthStatus_innerHTML
       (ui (snd (updateHealthIndicator (H := RefHost.host)
                   (answering ready_yes []) (mkWorld blank_page []))))
     = StatusDot "healthy" "Healthy"
  /\ indicator_as_specified r = StatusDot "unhealthy" "Degraded".
Proof. repeat split; vm_compute; reflexivity. Qed.

(** C6, at a readiness response with [status] "ready" and
    [qdrant_connected] [true]. *)
Lemma updateHealthIndicator_states_witness :
  updateHealthIndicator (H := RefHost.host) ready_connected
    (mkWorld blank_page [])
  = (Normal tt,
     mkWorld (set_healthStatus (StatusDot "healthy" "Healthy") blank_page)
       [EvFetch ready_args]).
Proof.
  refine (proj2 (updateHealthIndicator_states (H := RefHost.host)
                   ready_connected blank_page []
                   (mkResult
                      (VObject [(js "status", VString "ready");
                                (js "qdrant_connected", VBool true)])
                      VNull)
                   (mkWorld
                      (set_healthStatus
                         (StatusDot "checking" "Checking...") blank_page)
                      [EvFetch ready_args]) _) _ _);
    vm_compute; reflexivity.
Defined.


(** A question of spaces only is checked as the empty string and, with a
    check that refuses the empty string, nothing is sent. *)
Lemma white_space_question_rejected :
  trace (snd (handleQuerySubmit (H := RefHost.host) (scripts := sample_scripts)
                (answering hello_stream [])
                (mkWorld (asking "    " false) [])))
  = [EvCall "validateQuestion" [VString []];
     EvCall "showToast" [VString "Please enter a question"; VString "error"]].
Proof. vm_compute. reflexivity. Qed.

(** * Further properties *)

Import MoreExamples.

(** ** request, further *)

Lemma starts_with_app (needle post : jsstring) :
  starts_with needle (needle ++ post) = true.
Proof.
  induction needle as [|c needle IH]; simpl; [reflexivity|].
  now rewrite N.eqb_refl, IH.
Qed.

Lemma includes_infix (pre needle post : jsstring) :
  includes (pre ++ needle ++ post) needle = true.
Proof.
  induction pre as [|c pre IH]; simpl.
  - destruct (needle ++ post) eqn:E; simpl;
      rewrite <- E, starts_with_app; reflexivity.
  - rewrite IH. apply orb_true_r.
Qed.

Section MoreOfRequest.
Context {H : Host} {U : Type}.
Variable net : Transport.
Variable baseURL : jsstring.

(** X1.  Whatever the transport answers, [request] hands one request to
    [fetch], made of the base URL followed by the endpoint and of the
    caller's options, never a second one, and leaves the caller's state as
    it was. *)
Theorem request_fetches_once (endpoint : jsstring) (options : Options)
    (w : World U) :
  let w' := snd (request net baseURL endpoint options w) in
  ui w' = ui w
  /\ fetches (trace w')
     = fetches (trace w)
       ++ [mkRequest (baseURL ++ endpoint) (opt_method options)
             (match opt_headers options with Some h => h | None => [] end)
             (opt_body options)].
Proof.
  destruct (request_returns net baseURL endpoint options w)
    as (w' & Hrun & Hui & log & Htr & Hp).
  rewrite Hrun. simpl. split; [exact Hui|].
  destruct (inert_passive _ Hp) as [Hf _].
  rewrite Htr, fetches_app. unfold fetches in *. simpl. now rewrite Hf.
Qed.

(** X2.  [request] returns, and the Result has a null [error] exactly when
    [fetch] resolves with a 2xx response whose body is read (for a content
    type other than JSON) or read and parsed (otherwise). *)
Theorem request_succeeds_iff (endpoint : jsstring) (options : Options)
    (w : World U) :
  match request net baseURL endpoint options w with
  | (Normal r, _) =>
      error r = VNull <->
      exists response,
        fetch net (fetch_args baseURL endpoint options) = Normal response
        /\ ok response = true
        /\ (if non_json (content_type response)
            then exists text, response_text response = Normal text
                              /\ data r = VString text
            else exists body, response_json response = Normal body
                              /\ data r = body)
  | (Throw _, _) => False
  end.
Proof.
  destruct (request_returns net baseURL endpoint options w)
    as (w' & -> & _).
  unfold request_outcome.
  destruct (fetch net (fetch_args baseURL endpoint options))
    as [response|e]; cbv zeta.
  2:{ simpl. split; [discriminate | intros (? & [=] & _)]. }
  destruct (non_json (content_type response)) eqn:Ect.
  - destruct (response_text response) as [text|e] eqn:Et.
    + destruct (ok response) eqn:Eok; simpl.
      * split; [intros _|reflexivity]. exists response.
        rewrite Ect. repeat split; eauto.
      * split; [discriminate|].
        intros (r' & [= <-] & Hok & _). congruence.
    + simpl. split; [discriminate|].
      intros (r' & [= <-] & _ & Hx). rewrite Ect in Hx.
      destruct Hx as (text & Ht & _). congruence.
  - destruct (response_json response) as [body|e] eqn:Ej.
    + destruct (ok response) eqn:Eok; simpl.
      * split; [intros _|reflexivity]. exists response.
        rewrite Ect. repeat split; eauto.
      * destruct (extract_error body (http_status_line response))
          as [err|e] eqn:Ee; simpl.
        -- apply extract_error_truthy in Ee; [|reflexivity].
           split; [intros ->; discriminate|].
           intros (r' & [= <-] & Hok & _). congruence.
        -- split; [discriminate|].
           intros (r' & [= <-] & Hok & _). congruence.
    + simpl. split; [discriminate|].
      intros (r' & [= <-] & _ & Hx). rewrite Ect in Hx.
      destruct Hx as (body & Hb & _). congruence.
Qed.

(** X3.  When [fetch] rejects, [request] logs the exception and returns
    [{ data: null, error }] where [error] is the message of the exception,
    or "Network error. Please check your connection." when that message is
    empty. *)
Theorem request_network_failure (endpoint : jsstring) (options : Options)
    (e : Exn) (w : World U) :
  fetch net (fetch_args baseURL endpoint options) = Throw e ->
  request net baseURL endpoint options w
  = (Normal (mkResult VNull
               (VString
                  (if nonempty (message e) then message e
                   else "Network error. Please check your connection."))),
     mkWorld (ui w)
       (trace w ++ [EvFetch (fetch_args baseURL endpoint options);
                    EvConsoleError "API request failed:" e])).
Proof.
  intros Hf. rewrite request_run, Hf. cbv zeta. rewrite request_failed_run.
  unfold sent. simpl. now rewrite <- app_assoc.
Qed.

(** X4.  A response with a content type that does not include
    "application/json" is not parsed: with a 2xx status its text, even
    empty, is the [data]; with another status its text is the [error], and
    "HTTP <status>: <statusText>" when the text is empty. *)
Theorem request_text_response (endpoint : jsstring) (options : Options)
    (response : Response) (ct text : jsstring) (w : World U) :
  fetch net (fetch_args baseURL endpoint options) = Normal response ->
  content_type response = Some ct ->
  nonempty ct = true ->
  includes ct "application/json" = false ->
  response_text response = Normal text ->
  fst (request net baseURL endpoint options w)
  = Normal (if ok response then mkResult (VString text) VNull
            else mkResult VNull
                   (VString (if nonempty text then text
                             else js "HTTP " ++ of_N (status response)
                                  ++ js ": " ++ statusText response))).
Proof.
  intros Hf Hct Hne Hinc Ht. rewrite request_run, Hf. cbv zeta.
  unfold try_catch, non_json. rewrite Hct, Hne, Hinc. cbn [andb negb].
  rewrite text_branch_run, Ht. destruct (ok response); reflexivity.
Qed.

(** X5.  A content type that contains "application/json" anywhere, for
    instance followed by a charset, makes [request] parse the body: for a
    2xx status the parsed value is the [data]. *)
Theorem request_json_with_parameters (endpoint : jsstring)
    (options : Options) (response : Response) (pre post : jsstring)
    (body : value) (w : World U) :
  fetch net (fetch_args baseURL endpoint options) = Normal response ->
  content_type response = Some (pre ++ js "application/json" ++ post) ->
  ok response = true ->
  response_json response = Normal body ->
  fst (request net baseURL endpoint options w)
  = Normal (mkResult body VNull).
Proof.
  intros Hf Hct Hok Hj. rewrite request_run, Hf. cbv zeta.
  unfold try_catch, non_json. rewrite Hct, includes_infix, andb_false_r.
  rewrite json_branch_run, Hj, Hok. reflexivity.
Qed.

(** X6.  A non-2xx response parsed as JSON whose body is a value without
    fields to read (a string, a number, a boolean, an array) is reported
    with the error "HTTP <status>: <statusText>". *)
Theorem request_error_without_fields (endpoint : jsstring)
    (options : Options) (response : Response) (body : value) (w : World U) :
  fetch net (fetch_args baseURL endpoint options) = Normal response ->
  ok response = false ->
  non_json (content_type response) = false ->
  response_json response = Normal body ->
  nullish body = false ->
  is_object body = false ->
  fst (request net baseURL endpoint options w)
  = Normal (mkResult VNull
              (VString (js "HTTP " ++ of_N (status response) ++ js ": "
                          ++ statusText response))).
Proof.
  intros Hf Hok Hct Hj Hn Ho. rewrite request_run, Hf. cbv zeta.
  unfold try_catch. rewrite Hct, json_branch_run, Hj, Hok. simpl negb.
  cbv iota. unfold extract_error. rewrite Hn.
  destruct body; try discriminate; reflexivity.
Qed.

(** X7.  A non-2xx response parsed as JSON whose body is [null]: reading
    its [error] field throws, and the error reported is the message of that
    TypeError, not the status line. *)
Theorem request_error_null_body (endpoint : jsstring) (options : Options)
    (response : Response) (w : World U) :
  fetch net (fetch_args baseURL endpoint options) = Normal response ->
  ok response = false ->
  non_json (content_type response) = false ->
  response_json response = Normal VNull ->
  fst (request net baseURL endpoint options w)
  = Normal (mkResult VNull
              (VString
                 (if nonempty (message (TypeError_nullish "error"))
                  then message (TypeError_nullish "error")
                  else "Network error. Please check your connection."))).
Proof.
  intros Hf Hok Hct Hj. rewrite request_run, Hf. cbv zeta.
  unfold try_catch. rewrite Hct, json_branch_run, Hj, Hok. simpl negb.
  cbv iota. unfold extract_error. simpl nullish. cbv iota.
  now rewrite request_failed_run.
Qed.

End MoreOfRequest.

(** X3, on a transport that is offline. *)
Lemma request_network_failure_witness :
  request (H := RefHost.host) (rejecting offline) [] "/health" get_options w0
  = (Normal (mkResult VNull (VString "Failed to fetch")),
     mkWorld tt [EvFetch (fetch_args [] "/health" get_options);
                 EvConsoleError "API request failed:" offline]).
Proof.
  exact (request_network_failure (H := RefHost.host) (rejecting offline) []
           "/health" get_options offline w0 eq_refl).
Defined.

(** X4, at a 200 text/plain response with the body "pong". *)
Lemma request_text_response_witness :
  fst (request (H := RefHost.host) (answering plain_text []) [] "/health"
         get_options w0)
  = Normal (mkResult (VString "pong") VNull).
Proof.
  apply (request_text_response (H := RefHost.host) (answering plain_text [])
           [] "/health" get_options plain_text (js "text/plain") (js "pong")
           w0); vm_compute; reflexivity.
Defined.

(** X5, at the content type "application/json; charset=utf-8". *)
Lemma request_json_with_parameters_witness :
  fst (request (H := RefHost.host) (answering json_utf8 []) [] "/health"
         get_options w0)
  = Normal (mkResult (VObject [(js "status", VString "healthy")]) VNull).
Proof.
  apply (request_json_with_parameters (H := RefHost.host)
           (answering json_utf8 []) [] "/health" get_options json_utf8
           [] (js "; charset=utf-8")); vm_compute; reflexivity.
Defined.

(** X6, at a 502 response whose JSON body is an array. *)
Lemma request_error_without_fields_witness :
  fst (request (H := RefHost.host) (answering array_error []) [] "/health"
         get_options w0)
  = Normal (mkResult VNull (VString "HTTP 502: Bad Gateway")).
Proof.
  apply (request_error_without_fields (H := RefHost.host)
           (answering array_error []) [] "/health" get_options array_error
           (VArray [VString "upstream"; VString "down"]));
    vm_compute; reflexivity.
Defined.

(** X7, at a 500 response whose JSON body is [null]. *)
Lemma request_error_null_body_witness :
  fst (request (H := RefHost.host) (answering null_error []) [] "/health"
         get_options w0)
  = Normal (mkResult VNull
              (VString "Cannot read properties of null (reading 'error')")).
Proof.
  apply (request_error_null_body (H := RefHost.host)
           (answering null_error []) [] "/health" get_options null_error);
    vm_compute; reflexivity.
Defined.

(** ** queryStream, further *)

Section MoreOfQueryStream.
Context {H : Host} {U : Type}.
Variable net : Transport.
Variable baseURL : jsstring.

Lemma decode_all_length (pending : list (list byte)) :
  forall decoder : TextDecoder,
    List.length (decode_all decoder pending) = List.length pending.
Proof.
  induction pending as [|value pending IH]; intros decoder; simpl;
    [reflexivity|].
  destruct (decode decoder value) as [chunk decoder']. simpl.
  now rewrite IH.
Qed.

(** The loop with a callback: the calls made, the state they leave, the
    outcome. *)
Lemma read_loop_run (cb : Callback U jsstring) (failure : option Exn) :
  forall (pending : list (list byte)) (decoder : TextDecoder)
         (fullText : jsstring) (w : World U),
    read_loop (Some cb) decoder pending failure fullText w
    = let '(calls, thrown, u') :=
        call_each cb (decode_all decoder pending) (ui w) in
      (match thrown with
       | Some t => Throw t
       | None =>
           match failure with
           | Some e => Throw e
           | None => Normal (fullText ++ List.concat calls)
           end
       end,
       mkWorld u' (trace w ++ map EvOnChunk calls)).
Proof.
  induction pending as [|value pending IH];
    intros decoder fullText w; simpl.
  - rewrite !app_nil_r. destruct w as [u tr].
    destruct failure; reflexivity.
  - destruct (decode decoder value) as [chunk decoder']. simpl.
    unfold bind at 1. unfold bind at 1, emit, invoke. simpl.
    destruct (cb chunk (ui w)) as [[[]|t] u1]; [|reflexivity].
    rewrite IH. simpl.
    destruct (call_each cb (decode_all decoder' pending) u1)
      as [[calls thrown] u2].
    simpl. rewrite <- !app_assoc. reflexivity.
Qed.

(** A callback that returns each time is called on every chunk. *)
Lemma call_each_returning (cb : Callback U jsstring) :
  (forall chunk u, fst (cb chunk u) = Normal tt) ->
  forall (decoded : list jsstring) (u : U),
    call_each cb decoded u
    = (decoded, None, fold_left (fun u chunk => snd (cb chunk u)) decoded u).
Proof.
  intros Hcb. induction decoded as [|chunk decoded IH]; intros u; simpl;
    [reflexivity|].
  specialize (Hcb chunk u).
  destruct (cb chunk u) as [c u1]. simpl in Hcb. subst c. simpl.
  now rewrite IH.
Qed.

(** The chunks a callback is called on are the first ones, and it throws
    on the last of them at most. *)
Lemma call_each_prefix (cb : Callback U jsstring) :
  forall (decoded calls : list jsstring) (u u' : U) (t : Thrown),
    call_each cb decoded u = (calls, Some t, u') ->
    exists before chunk rest,
      calls = before ++ [chunk] /\ decoded = before ++ chunk :: rest
      /\ call_each cb before u
         = (before, None,
            fold_left (fun u chunk => snd (cb chunk u)) before u)
      /\ cb chunk (fold_left (fun u chunk => snd (cb chunk u)) before u)
         = (Throw t, u').
Proof.
  induction decoded as [|c decoded IH]; intros calls u u' t; simpl;
    [discriminate|].
  destruct (cb c u) as [[[]|t1] u1] eqn:Ecb.
  - destruct (call_each cb decoded u1) as [[calls1 thrown1] u2] eqn:E.
    intros [= <- -> <-].
    destruct (IH _ _ _ _ E) as (before & chunk & rest & -> & -> & Hb & Ht).
    exists (c :: before), chunk, rest. simpl. rewrite Ecb. simpl.
    rewrite Hb. auto.
  - intros [= <- <- <-]. exists [], c, decoded. simpl. auto.
Qed.

Lemma read_loop_none (pending : list (list byte)) (failure : option Exn) :
  forall (decoder : TextDecoder) (fullText : jsstring) (w : World U),
    read_loop None decoder pending failure fullText w
    = (match failure with
       | Some e => Throw e
       | None =>
           Normal (fullText ++ List.concat (decode_all decoder pending))
       end, w).
Proof.
  induction pending as [|value pending IH]; intros decoder fullText w;
    simpl.
  - rewrite app_nil_r. destruct failure; reflexivity.
  - destruct (decode decoder value) as [chunk decoder']. simpl.
    unfold bind at 1, ret at 1. rewrite IH, <- app_assoc. reflexivity.
Qed.

(** X8.  From a 2xx response whose body arrives to the end, and with a
    callback that returns each time, [queryStream] calls [onChunk] once for
    each chunk read, in order, on what the decoder returns for it, and
    returns the concatenation as [data]. *)
Theorem queryStream_delivers_each_chunk (question : jsstring)
    (onChunk : Callback U jsstring) (response : Response)
    (stream : BodyStream) (w : World U) :
  fetch net (stream_args baseURL question) = Normal response ->
  ok response = true ->
  body response = Some stream ->
  failure stream = None ->
  (forall chunk u, fst (onChunk chunk u) = Normal tt) ->
  let decoded := decode_all new_TextDecoder (chunks stream) in
  queryStream net baseURL question (Some onChunk) w
  = (Normal (mkResult (VString (List.concat decoded)) VNull),
     mkWorld (fold_left (fun u chunk => snd (onChunk chunk u)) decoded (ui w))
       (trace w ++ EvFetch (stream_args baseURL question)
                   :: map EvOnChunk decoded))
  /\ List.length decoded = List.length (chunks stream).
Proof.
  intros Hf Hok Hb Hend Hcb decoded. split; [|apply decode_all_length].
  rewrite queryStream_run, Hf. cbv zeta. rewrite Hok, Hb.
  rewrite read_loop_run, (call_each_returning onChunk Hcb), Hend.
  simpl. fold decoded. now rewrite <- app_assoc.
Qed.

(** X9.  When the body of a 2xx response breaks after some chunks,
    [onChunk] has been called on each of them, yet [queryStream] returns a
    null [data]: the text received so far is dropped and [error] is the
    message of the failure, or "Streaming failed. Please try again." when
    that message is empty. *)
Theorem queryStream_broken_stream (question : jsstring)
    (onChunk : Callback U jsstring) (response : Response)
    (stream : BodyStream) (e : Exn) (w : World U) :
  fetch net (stream_args baseURL question) = Normal response ->
  ok response = true ->
  body response = Some stream ->
  failure stream = Some e ->
  (forall chunk u, fst (onChunk chunk u) = Normal tt) ->
  let decoded := decode_all new_TextDecoder (chunks stream) in
  queryStream net baseURL question (Some onChunk) w
  = (Normal (caught e "Streaming failed. Please try again."),
     mkWorld (fold_left (fun u chunk => snd (onChunk chunk u)) decoded (ui w))
       (trace w ++ EvFetch (stream_args baseURL question)
                   :: map EvOnChunk decoded
                   ++ [EvConsoleError "Streaming query failed:" e])).
Proof.
  intros Hf Hok Hb Hend Hcb decoded.
  rewrite queryStream_run, Hf. cbv zeta. rewrite Hok, Hb.
  rewrite read_loop_run, (call_each_returning onChunk Hcb), Hend.
  simpl. fold decoded.
  rewrite stream_failed_run. unfold sent, caught. simpl.
  now rewrite <- !app_assoc.
Qed.

(** X10.  When the callback throws, on whichever chunk and in whichever
    state of its own, the reading stops there: [onChunk] has been called on
    the chunks up to that one, each time in the state its call before left,
    and on no later one.  What [queryStream] does then depends on what was
    thrown: for an Error object it returns a null [data] with the message
    as [error] ("Streaming failed. Please try again." when the message is
    empty); for any other value than [null] and [undefined] it returns a
    null [data] with the [message] property of that value when it is
    truthy and the same fallback when it is not; for [null] and
    [undefined] the [catch] block itself throws, reading [message], and the
    call is rejected with that TypeError. *)
Theorem queryStream_callback_throws (question : jsstring)
    (onChunk : Callback U jsstring) (response : Response)
    (stream : BodyStream) (calls : list jsstring) (thrown : Thrown)
    (u' : U) (w : World U) :
  fetch net (stream_args baseURL question) = Normal response ->
  ok response = true ->
  body response = Some stream ->
  call_each onChunk (decode_all new_TextDecoder (chunks stream)) (ui w)
  = (calls, Some thrown, u') ->
  queryStream net baseURL question (Some onChunk) w
  = (match thrown with
     | ErrorObject e =>
         Normal (caught e "Streaming failed. Please try again.")
     | Other v =>
         if nullish v then Throw (TypeError_nullish "message")
         else Normal (mkResult VNull
                        (first_truthy [field v "message"]
                           (VString "Streaming failed. Please try again.")))
     end,
     mkWorld u'
       (trace w ++ EvFetch (stream_args baseURL question)
                   :: map EvOnChunk calls
                   ++ [EvConsoleError "Streaming query failed:" thrown]))
  /\ exists before chunk rest,
       calls = before ++ [chunk]
       /\ decode_all new_TextDecoder (chunks stream)
          = before ++ chunk :: rest
       /\ onChunk chunk
            (fold_left (fun u chunk => snd (onChunk chunk u)) before (ui w))
          = (Throw thrown, u').
Proof.
  intros Hf Hok Hb Hthrow. split.
  - rewrite queryStream_run, Hf. cbv zeta. rewrite Hok, Hb.
    rewrite read_loop_run. unfold sent at 1. cbn [ui trace].
    rewrite Hthrow. cbv beta iota.
    rewrite stream_failed_thrown. unfold sent. simpl ui. simpl trace.
    rewrite <- !app_assoc. simpl app.
    destruct thrown as [e|v]; simpl message_of.
    + unfold caught. simpl. destruct (nonempty (message e)); reflexivity.
    + destruct (nullish v) eqn:En.
      * now rewrite (get_field_nullish _ _ En).
      * now rewrite (get_field_field _ _ En).
  - destruct (call_each_prefix onChunk _ _ _ _ _ Hthrow)
      as (before & chunk & rest & Hc & Hd & _ & Ht).
    exists before, chunk, rest. auto.
Qed.

(** X11.  Without a callback [queryStream] still reads the body to the end
    and returns the concatenation of what the decoder returns for the
    chunks; besides the request it leaves no trace. *)
Theorem queryStream_without_callback (question : jsstring)
    (response : Response) (stream : BodyStream) (w : World U) :
  fetch net (stream_args baseURL question) = Normal response ->
  ok response = true ->
  body response = Some stream ->
  failure stream = None ->
  queryStream net baseURL question None w
  = (Normal (mkResult
               (VString (List.concat
                           (decode_all new_TextDecoder (chunks stream))))
               VNull),
     mkWorld (ui w) (trace w ++ [EvFetch (stream_args baseURL question)])).
Proof.
  intros Hf Hok Hb Hend.
  rewrite queryStream_run, Hf. cbv zeta. rewrite Hok, Hb.
  rewrite read_loop_none, Hend. reflexivity.
Qed.

(** X12.  A 2xx response without a body (a 204, say) has no reader to get:
    [queryStream] returns a null [data] and the message of the TypeError as
    [error], and [onChunk] is not called. *)
Theorem queryStream_without_body (question : jsstring)
    (onChunk : option (Callback U jsstring)) (response : Response)
    (w : World U) :
  fetch net (stream_args baseURL question) = Normal response ->
  ok response = true ->
  body response = None ->
  queryStream net baseURL question onChunk w
  = (Normal (caught (TypeError_nullish "getReader")
               "Streaming failed. Please try again."),
     mkWorld (ui w)
       (trace w ++ [EvFetch (stream_args baseURL question);
                    EvConsoleError "Streaming query failed:"
                      (TypeError_nullish "getReader")])).
Proof.
  intros Hf Hok Hb.
  rewrite queryStream_run, Hf. cbv zeta. rewrite Hok, Hb.
  rewrite stream_failed_run. unfold sent, caught. simpl.
  now rewrite <- app_assoc.
Qed.

(** X13.  When [fetch] rejects, [queryStream] returns a null [data] and the
    message of the exception as [error], "Streaming failed. Please try
    again." when that message is empty; [onChunk] is not called. *)
Theorem queryStream_network_failure (question : jsstring)
    (onChunk : option (Callback U jsstring)) (e : Exn) (w : World U) :
  fetch net (stream_args baseURL question) = Throw e ->
  queryStream net baseURL question onChunk w
  = (Normal (caught e "Streaming failed. Please try again."),
     mkWorld (ui w)
       (trace w ++ [EvFetch (stream_args baseURL question);
                    EvConsoleError "Streaming query failed:" e])).
Proof.
  intros Hf. rewrite queryStream_run, Hf. cbv zeta.
  rewrite stream_failed_run. unfold sent, caught. simpl.
  now rewrite <- app_assoc.
Qed.

End MoreOfQueryStream.

(** X8, at a stream of the chunks "Hel" and "lo". *)
Lemma queryStream_delivers_each_chunk_witness :
  queryStream (H := RefHost.host) (answering hello_stream []) [] "hi"
    (Some keep) (mkWorld [] [])
  = (Normal (mkResult (VString "Hello") VNull),
     mkWorld [js "Hel"; js "lo"]
       [EvFetch (stream_args [] "hi"); EvOnChunk "Hel"; EvOnChunk "lo"])
  /\ 2%nat = 2%nat.
Proof.
  apply (queryStream_delivers_each_chunk (H := RefHost.host)
           (answering hello_stream []) [] "hi" keep hello_stream
           (mkBodyStream (map RefHost.bytes ["Hel"; "lo"]) None)
           (mkWorld [] [])); try reflexivity.
Defined.

(** X9, at a stream that breaks after the chunks "Hel" and "lo". *)
Lemma queryStream_broken_stream_witness :
  queryStream (H := RefHost.host) (answering broken_stream []) [] "hi"
    (Some keep) (mkWorld [] [])
  = (Normal (mkResult VNull (VString "network error")),
     mkWorld [js "Hel"; js "lo"]
       [EvFetch (stream_args [] "hi"); EvOnChunk "Hel"; EvOnChunk "lo";
        EvConsoleError "Streaming query failed:" reset]).
Proof.
  apply (queryStream_broken_stream (H := RefHost.host)
           (answering broken_stream []) [] "hi" keep broken_stream
           (mkBodyStream (map RefHost.bytes ["Hel"; "lo"]) (Some reset))
           reset (mkWorld [] [])); try reflexivity.
Defined.

(** X10, with a callback that throws an Error once it has kept a chunk:
    on the second of three chunks. *)
Lemma queryStream_callback_throws_witness :
  queryStream (H := RefHost.host) (answering three_chunks []) [] "hi"
    (Some picky) (mkWorld [] [])
  = (Normal (mkResult VNull (VString "no more")),
     mkWorld [js "Hel"; js "lo"]
       [EvFetch (stream_args [] "hi"); EvOnChunk "Hel"; EvOnChunk "lo";
        EvConsoleError "Streaming query failed:" refusal])
  /\ exists before chunk rest,
       [js "Hel"; js "lo"] = before ++ [chunk]
       /\ decode_all (H := RefHost.host) new_TextDecoder
            (chunks (mkBodyStream (map RefHost.bytes ["Hel"; "lo"; "!"])
                       None))
          = before ++ chunk :: rest
       /\ picky chunk
            (fold_left (fun u chunk => snd (picky chunk u)) before [])
          = (Throw refusal, [js "Hel"; js "lo"]).
Proof.
  apply (queryStream_callback_throws (H := RefHost.host)
           (answering three_chunks []) [] "hi" picky three_chunks
           (mkBodyStream (map RefHost.bytes ["Hel"; "lo"; "!"]) None)
           [js "Hel"; js "lo"] refusal [js "Hel"; js "lo"] (mkWorld [] []));
    reflexivity.
Defined.

(** X10, with a callback that throws [null] at the same point: the call is
    rejected. *)
Example queryStream_callback_throws_null :
  queryStream (H := RefHost.host) (answering three_chunks []) [] "hi"
    (Some throws_null) (mkWorld [] [])
  = (Throw (mkExn "TypeError"
              "Cannot read properties of null (reading 'message')"),
     mkWorld [js "Hel"; js "lo"]
       [EvFetch (stream_args [] "hi"); EvOnChunk "Hel"; EvOnChunk "lo";
        EvConsoleError "Streaming query failed:" (Other VNull)]).
Proof. vm_compute. reflexivity. Qed.

(** X11, at a stream of the chunks "Hel" and "lo". *)
Lemma queryStream_without_callback_witness :
  queryStream (H := RefHost.host) (answering hello_stream []) [] "hi" None w0
  = (Normal (mkResult (VString "Hello") VNull),
     mkWorld tt [EvFetch (stream_args [] "hi")]).
Proof.
  apply (queryStream_without_callback (H := RefHost.host)
           (answering hello_stream []) [] "hi" hello_stream
           (mkBodyStream (map RefHost.bytes ["Hel"; "lo"]) None) w0);
    reflexivity.
Defined.

(** X12, at a 204 response. *)
Lemma queryStream_without_body_witness :
  fst (queryStream (H := RefHost.host) (answering no_body []) [] "hi"
         (Some keep) (mkWorld [] []))
  = Normal (mkResult VNull
              (VString
                 "Cannot read properties of null (reading 'getReader')")).
Proof.
  rewrite (queryStream_without_body (H := RefHost.host) (answering no_body [])
             [] "hi" (Some keep) no_body (mkWorld [] []) eq_refl eq_refl
             eq_refl).
  reflexivity.
Defined.

(** X13, on a transport that is offline. *)
Lemma queryStream_network_failure_witness :
  queryStream (H := RefHost.host) (rejecting offline) [] "hi" (Some keep)
    (mkWorld [] [])
  = (Normal (mkResult VNull (VString "Failed to fetch")),
     mkWorld []
       [EvFetch (stream_args [] "hi");
        EvConsoleError "Streaming query failed:" offline]).
Proof.
  exact (queryStream_network_failure (H := RefHost.host) (rejecting offline)
           [] "hi" (Some keep) offline (mkWorld [] []) eq_refl).
Defined.

(** ** uploadDocument, further *)

Section MoreOfUpload.
Context {H : Host} {U : Type}.
Variable net : Transport.
Variable baseURL : jsstring.

(** What the upload resolves with is decided by the first terminal
    event. *)
Lemma uploadDocument_first_terminal (file : File)
    (onProgress : option (Callback U number)) (pre post : list XhrEvent)
    (ev : XhrEvent) (w : World U) :
  xhr_events net (upload_args baseURL file) = pre ++ ev :: post ->
  forallb (fun ev => negb (terminal ev)) pre = true ->
  terminal ev = true ->
  fst (uploadDocument net baseURL file onProgress w)
  = Normal (settle None ev).
Proof.
  intros Hev Hpre Ht.
  destruct (uploadDocument_sent net baseURL file onProgress w
              (xhr_events_sent net _ _ _ _ Hev)) as (w' & ->).
  simpl. now rewrite Hev, (settle_first_terminal pre post ev Hpre Ht).
Qed.

(** X14.  When the first terminal event of an upload is [error] (or
    [abort]), the promise is resolved with the error "Network error during
    upload" (or "Upload cancelled"), and no event that follows, not even a
    [load], changes that. *)
Theorem uploadDocument_error_or_abort (file : File)
    (onProgress : option (Callback U number)) (pre post : list XhrEvent)
    (aborted : bool) (w : World U) :
  xhr_events net (upload_args baseURL file)
  = pre ++ (if aborted then XhrAbort else XhrError) :: post ->
  forallb (fun ev => negb (terminal ev)) pre = true ->
  fst (uploadDocument net baseURL file onProgress w)
  = Normal (Some (mkResult VNull
                    (VString (if aborted then js "Upload cancelled"
                              else js "Network error during upload")))).
Proof.
  intros Hev Hpre.
  rewrite (uploadDocument_first_terminal file onProgress pre post _ w Hev Hpre)
    by (destruct aborted; reflexivity).
  destruct aborted; reflexivity.
Qed.

(** X15.  When the upload is answered with a 2xx status and a body that is
    JSON, the promise is resolved with the parsed body as [data] and a null
    [error]. *)
Theorem uploadDocument_success (file : File)
    (onProgress : option (Callback U number)) (pre post : list XhrEvent)
    (xhr_status : N) (responseText : jsstring) (body : value) (w : World U) :
  xhr_events net (upload_args baseURL file)
  = pre ++ XhrLoad xhr_status responseText :: post ->
  forallb (fun ev => negb (terminal ev)) pre = true ->
  200 <= xhr_status < 300 ->
  JSON_parse responseText = Normal body ->
  fst (uploadDocument net baseURL file onProgress w)
  = Normal (Some (mkResult body VNull)).
Proof.
  intros Hev Hpre [Hlo Hhi] Hp.
  rewrite (uploadDocument_first_terminal file onProgress pre post _ w Hev Hpre
             eq_refl).
  simpl. unfold load_outcome. rewrite Hp.
  apply N.leb_le in Hlo. apply N.ltb_lt in Hhi. now rewrite Hlo, Hhi.
Qed.

(** X16.  When the upload is answered with a status outside 200-299 and a
    JSON body other than [null], the error is the first truthy one among
    the body's [error], [message] and [detail] fields, and "Upload failed
    with status <status>" when there is none. *)
Theorem uploadDocument_error_status (file : File)
    (onProgress : option (Callback U number)) (pre post : list XhrEvent)
    (xhr_status : N) (responseText : jsstring) (body : value) (w : World U) :
  xhr_events net (upload_args baseURL file)
  = pre ++ XhrLoad xhr_status responseText :: post ->
  forallb (fun ev => negb (terminal ev)) pre = true ->
  xhr_status < 200 \/ 300 <= xhr_status ->
  JSON_parse responseText = Normal body ->
  nullish body = false ->
  fst (uploadDocument net baseURL file onProgress w)
  = Normal (Some (mkResult VNull
                    (first_truthy
                       [field body "error"; field body "message";
                        field body "detail"]
                       (VString (js "Upload failed with status "
                                   ++ of_N xhr_status))))).
Proof.
  intros Hev Hpre Hst Hp Hn.
  rewrite (uploadDocument_first_terminal file onProgress pre post _ w Hev Hpre
             eq_refl).
  simpl. unfold load_outcome. rewrite Hp.
  assert (E : (200 <=? xhr_status) && (xhr_status <? 300) = false).
  { apply andb_false_iff. destruct Hst as [Hst|Hst].
    - left. now apply N.leb_gt.
    - right. now apply N.ltb_ge. }
  rewrite E. unfold extract_error. now rewrite Hn.
Qed.

(** X17.  When the upload is answered with a status outside 200-299 and
    the JSON body [null], reading the [error] field throws inside the [try]
    and the promise is resolved with "Failed to parse server response",
    although the body did parse. *)
Theorem uploadDocument_error_null_body (file : File)
    (onProgress : option (Callback U number)) (pre post : list XhrEvent)
    (xhr_status : N) (responseText : jsstring) (w : World U) :
  xhr_events net (upload_args baseURL file)
  = pre ++ XhrLoad xhr_status responseText :: post ->
  forallb (fun ev => negb (terminal ev)) pre = true ->
  xhr_status < 200 \/ 300 <= xhr_status ->
  JSON_parse responseText = Normal VNull ->
  fst (uploadDocument net baseURL file onProgress w)
  = Normal (Some (mkResult VNull
                    (VString "Failed to parse server response"))).
Proof.
  intros Hev Hpre Hst Hp.
  rewrite (uploadDocument_first_terminal file onProgress pre post _ w Hev Hpre
             eq_refl).
  simpl. unfold load_outcome. rewrite Hp.
  assert (E : (200 <=? xhr_status) && (xhr_status <? 300) = false).
  { apply andb_false_iff. destruct Hst as [Hst|Hst].
    - left. now apply N.leb_gt.
    - right. now apply N.ltb_ge. }
  rewrite E. reflexivity.
Qed.

(** X18.  When [xhr.open] or [xhr.send] throws, the promise of
    [uploadDocument] is rejected with what was thrown, and nothing else
    happens.  When the request is sent the promise is never rejected, and
    it is pending exactly as long as none of [load], [error] and [abort]
    has been delivered: progress events alone never settle it. *)
Theorem uploadDocument_pending_iff (file : File)
    (onProgress : option (Callback U number)) (w : World U) :
  match xhr net (upload_args baseURL file) with
  | Throw e =>
      uploadDocument net baseURL file onProgress w = (Throw e, w)
  | Normal evs =>
      (fst (uploadDocument net baseURL file onProgress w) = Normal None
       <-> existsb terminal evs = false)
      /\ forall t,
           fst (uploadDocument net baseURL file onProgress w) <> Throw t
  end.
Proof.
  pose proof (uploadDocument_run net baseURL file onProgress w) as Hrun.
  destruct (xhr net (upload_args baseURL file)) as [evs|e]; [|exact Hrun].
  destruct Hrun as (w' & -> & _). simpl. split; [|discriminate]. split.
  - intros Hn. destruct (existsb terminal evs) eqn:Ex; [|reflexivity].
    destruct (first_terminal _ Ex) as (pre & ev & post & Hev & Hpre & Ht).
    rewrite Hev, (settle_first_terminal pre post ev Hpre Ht) in Hn.
    destruct ev; simpl in *; discriminate.
  - intros Ex. now rewrite (settle_pending _ Ex).
Qed.


(** X20.  What the promise of [uploadDocument] is resolved with does not
    depend on the progress callback: not on whether there is one, nor on
    what it does or throws. *)
Theorem uploadDocument_whatever_callback (file : File)
    (onProgress onProgress' : option (Callback U number)) (w w' : World U) :
  fst (uploadDocument net baseURL file onProgress w)
  = fst (uploadDocument net baseURL file onProgress' w').
Proof.
  pose proof (uploadDocument_run net baseURL file onProgress w) as Hrun.
  pose proof (uploadDocument_run net baseURL file onProgress' w') as Hrun'.
  destruct (xhr net (upload_args baseURL file)) as [evs|e].
  - destruct Hrun as (w1 & -> & _). destruct Hrun' as (w2 & -> & _).
    reflexivity.
  - now rewrite Hrun, Hrun'.
Qed.

End MoreOfUpload.

(** X18, on a transport whose [xhr.open] throws: the promise is rejected
    with what was thrown, nothing is sent and the callback is not called. *)
Example uploadDocument_open_throws :
  uploadDocument (H := RefHost.host) unopenable [] a_file (Some faulty) w0
  = (Throw invalid_url, w0).
Proof. vm_compute. reflexivity. Qed.

(** X18 and X19, at an upload of which two [progress] events have arrived:
    the promise is pending, and the callback, which throws, has been called
    with 25 and 50. *)
Example uploadDocument_in_flight :
  uploadDocument (H := RefHost.host) (answering not_found upload_in_flight)
    [] a_file (Some faulty) w0
  = (Normal None,
     mkWorld tt
       (EvXhrSend (upload_args [] a_file)
        :: map EvOnProgress [number_of_N 25; number_of_N 50])).
Proof. vm_compute. reflexivity. Qed.

(** X14, at an upload whose [error] event is followed by a [load], with a
    progress callback that throws. *)
Lemma uploadDocument_error_or_abort_witness :
  fst (uploadDocument (H := RefHost.host) (answering not_found upload_failed)
         [] a_file (Some faulty) w0)
  = Normal (Some (mkResult VNull (VString "Network error during upload"))).
Proof.
  apply (uploadDocument_error_or_abort (H := RefHost.host)
           (answering not_found upload_failed) [] a_file (Some faulty)
           [XhrProgress true 1 4; XhrProgress false 0 0]
           [XhrLoad 200 (RefHost.json_text "{'filename': 'a.pdf'}")]
           false w0); reflexivity.
Defined.

(** X15, at an upload answered with status 200 and a JSON object. *)
Lemma uploadDocument_success_witness :
  fst (uploadDocument (H := RefHost.host) (answering not_found upload_ok)
         [] a_file None w0)
  = Normal (Some (mkResult (VObject [(js "filename", VString "a.pdf")])
                    VNull)).
Proof.
  apply (uploadDocument_success (H := RefHost.host)
           (answering not_found upload_ok) [] a_file None
           [XhrProgress true 10 10] [] 200
           (RefHost.json_text "{'filename': 'a.pdf'}")
           (VObject [(js "filename", VString "a.pdf")]) w0);
    try reflexivity. lia.
Defined.

(** X16, at an upload answered with status 413 and a [detail] field. *)
Lemma uploadDocument_error_status_witness :
  fst (uploadDocument (H := RefHost.host)
         (answering not_found upload_too_large) [] a_file None w0)
  = Normal (Some (mkResult VNull (VString "File too large"))).
Proof.
  apply (uploadDocument_error_status (H := RefHost.host)
           (answering not_found upload_too_large) [] a_file None
           [] [] 413 (RefHost.json_text "{'detail': 'File too large'}")
           (VObject [(js "detail", VString "File too large")]) w0);
    try reflexivity. right. lia.
Defined.

(** X17, at an upload answered with status 500 and the body [null]. *)
Lemma uploadDocument_error_null_body_witness :
  fst (uploadDocument (H := RefHost.host)
         (answering not_found upload_null_error) [] a_file None w0)
  = Normal (Some (mkResult VNull
                    (VString "Failed to parse server response"))).
Proof.
  apply (uploadDocument_error_null_body (H := RefHost.host)
           (answering not_found upload_null_error) [] a_file None
           [] [] 500 (js "null") w0); try reflexivity. right. lia.
Defined.

(** ** The page, further *)

Lemma set_resultsArea_twice (h h' : Html) (p : Page) :
  set_resultsArea h' (set_resultsArea h p) = set_resultsArea h' p.
Proof. reflexivity. Qed.

Lemma trim_start_head (s : jsstring) (c : code_unit) (rest : jsstring) :
  trim_start s = c :: rest -> is_white_space c = false.
Proof.
  induction s as [|x s IH]; simpl; [discriminate|].
  destruct (is_white_space x) eqn:Ex; [exact IH|].
  intros [= <- _]. exact Ex.
Qed.

Lemma trim_start_suffix (s : jsstring) :
  exists pre, s = pre ++ trim_start s.
Proof.
  induction s as [|x s [pre IH]]; simpl; [now exists []|].
  destruct (is_white_space x).
  - exists (x :: pre). simpl. now rewrite <- IH.
  - now exists [].
Qed.

Lemma trim_start_id (s : jsstring) :
  (forall c rest, s = c :: rest -> is_white_space c = false) ->
  trim_start s = s.
Proof.
  destruct s as [|c s]; [reflexivity|]. intros Hh. simpl.
  now rewrite (Hh c s eq_refl).
Qed.

Lemma trim_trimmed (s : jsstring) : trimmed (trim s).
Proof.
  unfold trim, trim_end. set (t := trim_start s). split.
  - intros c rest E.
    destruct (trim_start_suffix (rev t)) as [pre Hpre].
    assert (Et : t = c :: rest ++ rev pre).
    { rewrite <- (rev_involutive t), Hpre, rev_app_distr, E. reflexivity. }
    exact (trim_start_head s c _ Et).
  - intros c init E.
    apply (f_equal (@rev _)) in E.
    rewrite rev_involutive, rev_app_distr in E. simpl in E.
    exact (trim_start_head _ _ _ E).
Qed.

Lemma trim_id (s : jsstring) : trimmed s -> trim s = s.
Proof.
  intros [Hhead Hlast]. unfold trim, trim_end.
  rewrite (trim_start_id s Hhead).
  rewrite trim_start_id; [apply rev_involutive|].
  intros c rest E. apply (Hlast c (rev rest)).
  rewrite <- (rev_involutive s), E. reflexivity.
Qed.

Section MoreOfThePage.
Context {H : Host} {scripts : Scripts}.
Variable net : Transport.

(** X21.  When [validateQuestion] refuses the trimmed question,
    [handleQuerySubmit] shows the error of the validation in a toast and
    does nothing else: no request is sent, the page and the submit button
    are left as they were. *)
Theorem handleQuerySubmit_refused (page : Page) (tr : list Event) :
  valid (validateQuestion (trim (questionInput_value page))) = false ->
  handleQuerySubmit net (mkWorld page tr)
  = (Normal tt,
     mkWorld page
       (tr ++ [EvCall "validateQuestion"
                 [VString (trim (questionInput_value page))];
               EvCall "showToast"
                 [validation_error
                    (validateQuestion (trim (questionInput_value page)));
                  VString "error"]])).
Proof.
  intros Hv. unfold handleQuerySubmit, bind at 1, get_ui at 1.
  cbv beta iota. simpl ui.
  unfold bind at 1, call at 1, emit at 1. cbv beta iota. simpl ui.
  simpl trace. rewrite Hv. simpl negb. cbv iota.
  unfold call, emit. simpl. now rewrite <- app_assoc.
Qed.

(** What the two handlers throw comes from the rendering or from the page:
    an Error object. *)
Lemma handleStandardQuery_throws (question : jsstring)
    (includeSources enableEvaluation : bool) (w w' : World Page)
    (t : Thrown) :
  handleStandardQuery net question includeSources enableEvaluation w
  = (Throw t, w') ->
  exists e, t = ErrorObject e.
Proof.
  unfold handleStandardQuery, bind at 1, modify_ui at 1. cbv beta iota.
  unfold bind at 1, query.
  match goal with
  | |- context [request net ?b ?e ?o ?w1] =>
      destruct (request_trace net b e o w1) as (r & w2 & log & Hrun & _)
  end.
  rewrite Hrun. cbv beta iota.
  destruct (truthy (error r)).
  - unfold bind, modify_ui, call, emit. simpl. discriminate.
  - unfold bind at 1, lift at 1.
    destruct (answerMarkup (data r) includeSources enableEvaluation)
      as [html|e]; cbn [raised].
    + unfold bind, modify_ui, call, emit. simpl. discriminate.
    + intros [= <- _]. eauto.
Qed.

Lemma handleStreamingQuery_throws (question : jsstring) (w w' : World Page)
    (t : Thrown) :
  handleStreamingQuery net question w = (Throw t, w') ->
  exists e, t = ErrorObject e.
Proof.
  unfold handleStreamingQuery, bind at 1, modify_ui at 1. cbv beta iota.
  unfold bind at 1, with_local.
  match goal with
  | |- context [queryStream net ?b ?q ?cb ?w1] =>
      destruct (queryStream_returns net b q cb w1
                  streaming_onChunk_throws_nothing)
        as (r & w2 & Hrun & _)
  end.
  rewrite Hrun. cbv beta iota.
  destruct (truthy (error r)).
  - unfold bind, modify_ui, call, emit. simpl. discriminate.
  - unfold bind at 1, modify_ui at 1. cbv beta iota.
    unfold bind at 1, invoke. simpl ui. unfold remove_badge.
    destruct (resultsArea_innerHTML _) as [| | | |q a c [|]|];
      simpl; try discriminate; intros [= <- _]; eauto.
Qed.

(** The run of [handleQuerySubmit] on a question that is accepted. *)
Lemma handleQuerySubmit_accepted_run (page : Page) (tr : list Event) :
  valid (validateQuestion (trim (questionInput_value page))) = true ->
  exists log w',
    handleQuerySubmit net (mkWorld page tr) = (Normal tt, w')
    /\ trace w'
       = tr ++ [EvCall "validateQuestion"
                  [VString (trim (questionInput_value page))];
                EvCall "setButtonLoading"
                  [VString "submitQueryBtn"; VBool true;
                   VString "Processing..."]]
            ++ log
            ++ [EvCall "setButtonLoading"
                  [VString "submitQueryBtn"; VBool false]].
Proof.
  intros Hv. unfold handleQuerySubmit, bind at 1, get_ui at 1.
  cbv beta iota. simpl ui.
  unfold bind at 1, call at 1, emit at 1. cbv beta iota. simpl ui.
  simpl trace. rewrite Hv. cbn [negb]. cbv iota.
  unfold bind at 1, modify_ui at 1. cbv beta iota. simpl ui. simpl trace.
  unfold bind at 1, call at 1, emit at 1. cbv beta iota. simpl ui.
  simpl trace.
  unfold try_finally, try_catch.
  match goal with
  | |- context [(if useStreamingCheck_checked page then ?a else ?b) ?w1] =>
      assert (Hh : (exists log,
                       trace (snd ((if useStreamingCheck_checked page
                                    then a else b) w1))
                       = trace w1 ++ log)
                   /\ forall t w2,
                        (if useStreamingCheck_checked page then a else b) w1
                        = (Throw t, w2) ->
                        exists e, t = ErrorObject e);
      [destruct (useStreamingCheck_checked page);
       [destruct (handleStreamingQuery_trace net
                    (trim (questionInput_value page)) w1) as (l & -> & _);
        split; [eexists; reflexivity
               |intros t w2 Ht;
                eapply handleStreamingQuery_throws; exact Ht]
       |destruct (handleStandardQuery_trace net
                    (trim (questionInput_value page))
                    (includeSourcesCheck_checked page)
                    (enableEvaluationCheck_checked page) w1) as (l & -> & _);
        split; [eexists; reflexivity
               |intros t w2 Ht;
                eapply handleStandardQuery_throws; exact Ht]]
      |destruct ((if useStreamingCheck_checked page then a else b) w1)
         as [c w2]]
  end.
  destruct Hh as ((log & Htr) & Hthrown). simpl in Htr.
  destruct c as [[]|t].
  - unfold call, emit. simpl. eexists log, _. split; [reflexivity|].
    simpl. rewrite Htr, <- !app_assoc. reflexivity.
  - destruct (Hthrown t w2 eq_refl) as [e ->].
    unfold bind, lift, modify_ui, call, emit. simpl.
    eexists (log ++ [_]), _. split; [reflexivity|].
    simpl. rewrite Htr, <- !app_assoc. reflexivity.
Qed.

(** X22.  When the question passes the check, [handleQuerySubmit] returns
    without throwing whatever the transport and the rendering do, having
    put the submit button in its loading state before the query and taken
    it out of it as its last act. *)
Theorem handleQuerySubmit_resets_button (page : Page) (tr : list Event) :
  valid (validateQuestion (trim (questionInput_value page))) = true ->
  fst (handleQuerySubmit net (mkWorld page tr)) = Normal tt
  /\ exists log,
       trace (snd (handleQuerySubmit net (mkWorld page tr)))
       = tr ++ [EvCall "validateQuestion"
                  [VString (trim (questionInput_value page))];
                EvCall "setButtonLoading"
                  [VString "submitQueryBtn"; VBool true;
                   VString "Processing..."]]
            ++ log
            ++ [EvCall "setButtonLoading"
                  [VString "submitQueryBtn"; VBool false]].
Proof.
  intros Hv.
  destruct (handleQuerySubmit_accepted_run page tr Hv)
    as (log & w' & Hrun & Htr).
  rewrite Hrun. split; [reflexivity|]. exists log. exact Htr.
Qed.

End MoreOfThePage.

(** What the callback of [handleStreamingQuery] leaves after a series of
    chunks: the card shows all the text so far, followed by the cursor. *)
Lemma streaming_onChunk_fold (decoded : list jsstring) :
  forall (p : Page) (fullAnswer question answer : jsstring)
         (cursor badge : bool),
    resultsArea_innerHTML p = StreamingCard question answer cursor badge ->
    fold_left (fun st chunk => snd (streaming_onChunk chunk st)) decoded
      (p, fullAnswer)
    = (match decoded with
       | [] => p
       | _ :: _ =>
           set_resultsArea
             (StreamingCard question (fullAnswer ++ List.concat decoded)
                true badge) p
       end, fullAnswer ++ List.concat decoded).
Proof.
  induction decoded as [|chunk decoded IH];
    intros p fullAnswer question answer cursor badge Hp.
  - simpl. now rewrite app_nil_r.
  - cbn [fold_left List.concat].
    change (snd (streaming_onChunk chunk (p, fullAnswer)))
      with (set_streamingAnswer (fullAnswer ++ chunk) true p,
            fullAnswer ++ chunk).
    unfold set_streamingAnswer. rewrite Hp.
    etransitivity.
    { apply (IH _ _ question (fullAnswer ++ chunk) true badge).
      reflexivity. }
    destruct decoded; cbn [List.concat];
      rewrite ?app_nil_r, <- ?app_assoc; reflexivity.
Qed.

Section MoreOfStreaming.
Context {H : Host} {scripts : Scripts}.
Variable net : Transport.

(** The state of the page and of [fullAnswer] when [queryStream] returns to
    [handleStreamingQuery]: the callback has run on some chunks. *)
Lemma read_loop_ui {U} (cb : Callback U jsstring)
    (pending : list (list byte)) (failure : option Exn) :
  forall (decoder : TextDecoder) (fullText : jsstring) (w : World U),
  exists calls,
    ui (snd (read_loop (Some cb) decoder pending failure fullText w))
    = fold_left (fun u chunk => snd (cb chunk u)) calls (ui w).
Proof.
  induction pending as [|value pending IH]; intros decoder fullText w;
    simpl.
  - exists []. destruct failure; reflexivity.
  - destruct (decode decoder value) as [chunk decoder'].
    unfold bind at 1. unfold bind at 1, emit, invoke. simpl.
    destruct (cb chunk (ui w)) as [[[]|e] u'] eqn:Ecb.
    + match goal with
      | |- context [read_loop _ ?d ?p ?f ?t ?w1] =>
          destruct (IH d t w1) as [calls ->]
      end.
      exists (chunk :: calls). simpl. now rewrite Ecb.
    + exists [chunk]. simpl. now rewrite Ecb.
Qed.

Lemma queryStream_ui {U} (baseURL question : jsstring)
    (cb : Callback U jsstring) (w : World U) :
  exists calls,
    ui (snd (queryStream net baseURL question (Some cb) w))
    = fold_left (fun u chunk => snd (cb chunk u)) calls (ui w).
Proof.
  rewrite queryStream_run. cbv zeta.
  destruct (fetch net (stream_args baseURL question)) as [response|e];
    [|rewrite stream_failed_thrown; now exists []].
  destruct (ok response).
  - destruct (body response) as [stream|];
      [|rewrite stream_failed_thrown; now exists []].
    destruct (read_loop_ui cb (chunks stream) (failure stream)
                new_TextDecoder []
                (sent w (EvFetch (stream_args baseURL question))))
      as [calls Hui].
    destruct (read_loop _ _ _ _ _ _) as [[fullText|e] w2];
      exists calls; [|rewrite stream_failed_thrown]; exact Hui.
  - destruct (response_text response);
      [|rewrite stream_failed_thrown]; now exists [].
Qed.

(** X23.  When the response to a streaming query is 2xx and its body
    arrives to the end, [handleStreamingQuery] ends with the answer card
    showing the question and the whole decoded text, without cursor and
    without badge, and announces the answer in a toast. *)
Theorem handleStreamingQuery_shows_answer (question : jsstring)
    (response : Response) (stream : BodyStream) (w : World Page) :
  fetch net (stream_args apiClient_baseURL question) = Normal response ->
  ok response = true ->
  body response = Some stream ->
  failure stream = None ->
  let decoded := decode_all new_TextDecoder (chunks stream) in
  handleStreamingQuery net question w
  = (Normal tt,
     mkWorld
       (set_resultsArea
          (StreamingCard question (List.concat decoded) false false) (ui w))
       (trace w
          ++ EvFetch (stream_args apiClient_baseURL question)
             :: map EvOnChunk decoded
          ++ [EvCall "showToast"
                [VString "Answer generated successfully";
                 VString "success"]])).
Proof.
  intros Hf Hok Hb Hend decoded.
  unfold handleStreamingQuery, bind at 1, modify_ui at 1. cbv beta iota.
  unfold bind at 1, with_local.
  rewrite queryStream_run, Hf. cbv zeta. rewrite Hok, Hb.
  rewrite read_loop_run,
    (call_each_returning streaming_onChunk streaming_onChunk_returns), Hend.
  cbv beta iota. fold decoded.
  cbn [ui trace sent].
  rewrite (streaming_onChunk_fold decoded
             (set_resultsArea (StreamingCard question [] true true) (ui w))
             [] question [] true true eq_refl).
  cbn [fst snd error truthy app].
  unfold bind at 1, modify_ui at 1. cbv beta iota. cbn [ui trace].
  unfold bind at 1, invoke. cbn [ui trace].
  unfold set_streamingAnswer, remove_badge.
  destruct decoded as [|chunk decoded']; cbn -[List.concat js];
    unfold call, emit; cbn -[List.concat js];
    rewrite <- !app_assoc; reflexivity.
Qed.

(** X24.  Whatever the transport does, [handleStreamingQuery] returns
    without throwing and leaves in the results area either the finished
    card (no cursor, no badge) or an error alert with a truthy message:
    never a card that still shows the cursor or the "Streaming" badge. *)
Theorem handleStreamingQuery_settles (question : jsstring)
    (w : World Page) :
  exists w',
    handleStreamingQuery net question w = (Normal tt, w')
    /\ ((exists text,
            resultsArea_innerHTML (ui w')
            = StreamingCard question text false false)
        \/ (exists err,
               resultsArea_innerHTML (ui w') = ErrorAlert err
               /\ truthy err = true)).
Proof.
  unfold handleStreamingQuery, bind at 1, modify_ui at 1. cbv beta iota.
  unfold bind at 1, with_local.
  match goal with
  | |- context [queryStream net ?b ?q ?cb ?w1] =>
      destruct (queryStream_returns net b q cb w1
                  streaming_onChunk_throws_nothing)
        as (r & w2 & Hrun & _ & Hs);
      destruct (queryStream_ui b q streaming_onChunk w1) as [calls Hui]
  end.
  rewrite Hrun in Hui |- *. cbn [fst snd ui] in Hui. cbv beta iota.
  destruct Hs as [He|[_ Ht]].
  - rewrite He. cbn [truthy]. cbv iota.
    unfold bind at 1, modify_ui at 1. cbv beta iota. cbn [ui trace fst snd].
    unfold bind at 1, invoke. cbn [ui trace].
    rewrite Hui.
    rewrite (streaming_onChunk_fold calls
               (set_resultsArea (StreamingCard question [] true true) (ui w))
               [] question [] true true eq_refl).
    cbn [fst snd]. unfold set_streamingAnswer, remove_badge.
    destruct calls as [|chunk calls']; cbn -[List.concat js];
      unfold call, emit; cbn -[List.concat js];
      (eexists; split; [reflexivity|]; left; eexists; reflexivity).
  - rewrite Ht. unfold bind, modify_ui, call, emit. cbn.
    eexists; split; [reflexivity|]. right.
    exists (error r). split; [reflexivity | exact Ht].
Qed.

End MoreOfStreaming.

(** X23, at a stream of the chunks "Hel" and "lo". *)
Lemma handleStreamingQuery_shows_answer_witness :
  handleStreamingQuery (H := RefHost.host) (answering hello_stream []) "hi"
    (mkWorld blank_page [])
  = (Normal tt,
     mkWorld (set_resultsArea (StreamingCard "hi" "Hello" false false)
                blank_page)
       [EvFetch (stream_args [] "hi"); EvOnChunk "Hel"; EvOnChunk "lo";
        EvCall "showToast" [VString "Answer generated successfully";
                            VString "success"]]).
Proof.
  apply (handleStreamingQuery_shows_answer (H := RefHost.host)
           (answering hello_stream []) "hi" hello_stream
           (mkBodyStream (map RefHost.bytes ["Hel"; "lo"]) None)
           (mkWorld blank_page [])); reflexivity.
Defined.

Section MoreOfHealth.
Context {H : Host} {scripts : Scripts}.
Variable net : Transport.

Lemma request_outcome_success_ok (c : Completion Response) :
  error (request_outcome c) = VNull ->
  exists response, c = Normal response /\ ok response = true.
Proof.
  unfold request_outcome.
  destruct c as [response|e]; cbv zeta; [|discriminate].
  intros He. exists response. split; [reflexivity|].
  destruct (ok response); [reflexivity|].
  destruct (non_json (content_type response)).
  - destruct (response_text response); discriminate.
  - destruct (response_json response) as [body|e]; [|discriminate].
    destruct (extract_error body (http_status_line response)) as [err|e] eqn:E;
      [|discriminate].
    apply extract_error_truthy in E; [|reflexivity].
    simpl in He. subst err. discriminate.
Qed.

(** X25.  When the readiness request fails, or is answered with a status
    outside 200-299, whatever the body, [updateHealthIndicator] ends with
    the unhealthy dot labelled "Unhealthy". *)
Theorem updateHealthIndicator_unreachable (page : Page) (tr : list Event) :
  match fetch net ready_args with
  | Normal response => ok response = false
  | Throw _ => True
  end ->
  exists w',
    updateHealthIndicator net (mkWorld page tr) = (Normal tt, w')
    /\ healthStatus_innerHTML (ui w') = StatusDot "unhealthy" "Unhealthy".
Proof.
  intros Hnet.
  unfold updateHealthIndicator, bind at 1, modify_ui at 1. cbv beta iota.
  unfold bind at 1, readinessCheck.
  match goal with
  | |- context [request net ?b ?e ?o ?w1] =>
      destruct (request_returns net b e o w1) as (w2 & -> & _)
  end.
  cbv beta iota.
  fold get_options. fold ready_args.
  destruct (request_outcome_shape (fetch net ready_args)) as [He|[_ Ht]].
  - apply request_outcome_success_ok in He as (response & Hf & Hok).
    rewrite Hf in Hnet. congruence.
  - rewrite Ht. eexists. split; reflexivity.
Qed.

(** X26.  When the readiness request is answered with a 2xx status and
    the JSON body [null], the Result has neither data nor error; reading
    [data.status] throws, [updateHealthIndicator] is rejected with that
    TypeError and the indicator stays at "Checking...". *)
Theorem updateHealthIndicator_null_data (page : Page) (tr : list Event)
    (response : Response) :
  fetch net ready_args = Normal response ->
  ok response = true ->
  non_json (content_type response) = false ->
  response_json response = Normal VNull ->
  updateHealthIndicator net (mkWorld page tr)
  = (Throw (TypeError_nullish "status"),
     mkWorld (set_healthStatus (StatusDot "checking" "Checking...") page)
       (tr ++ [EvFetch ready_args])).
Proof.
  intros Hf Hok Hct Hj.
  unfold updateHealthIndicator, bind at 1, modify_ui at 1. cbv beta iota.
  unfold bind at 1, readinessCheck. rewrite request_run.
  fold get_options. fold ready_args. rewrite Hf. cbv zeta.
  unfold try_catch. rewrite Hct, json_branch_run, Hj, Hok. reflexivity.
Qed.

End MoreOfHealth.

(** X25, on a transport that is offline. *)
Lemma updateHealthIndicator_unreachable_witness :
  exists w',
    updateHealthIndicator (H := RefHost.host) (rejecting offline)
      (mkWorld blank_page []) = (Normal tt, w')
    /\ healthStatus_innerHTML (ui w') = StatusDot "unhealthy" "Unhealthy".
Proof.
  apply (updateHealthIndicator_unreachable (H := RefHost.host)
           (rejecting offline) blank_page []). exact I.
Defined.

(** X26, at a 200 response whose JSON body is [null]. *)
Lemma updateHealthIndicator_null_data_witness :
  updateHealthIndicator (H := RefHost.host) null_body (mkWorld blank_page [])
  = (Throw (mkExn "TypeError"
              "Cannot read properties of null (reading 'status')"),
     mkWorld (set_healthStatus (StatusDot "checking" "Checking...")
                blank_page)
       [EvFetch ready_args]).
Proof.
  apply (updateHealthIndicator_null_data (H := RefHost.host) null_body
           blank_page [] (json_response 200 "OK" "null"));
    vm_compute; reflexivity.
Defined.

(** ** The counter, the question and the streaming box *)

(** X27.  The [input] listener writes "<length> / 1000" in the counter
    and touches no class of the counter other than warning and danger, nor
    the text of the question. *)
Theorem charCounter_other_classes (page : Page) (tr : list Event) :
  let page' := ui (snd (questionInput_oninput (mkWorld page tr))) in
  charCounter_textContent page'
  = of_N (N.of_nat (List.length (questionInput_value page))) ++ js " / 1000"
  /\ questionInput_value page' = questionInput_value page
  /\ forall token,
       token <> js "warning" -> token <> js "danger" ->
       (In token (charCounter_classList page')
        <-> In token (charCounter_classList page)).
Proof.
  unfold questionInput_oninput, bind, get_ui, modify_ui. cbn.
  destruct (900 <? _); destruct (950 <? _); cbn;
    (split; [reflexivity|]); (split; [reflexivity|]);
    intros token Hw Hd; repeat rewrite ?In_add, ?In_remove; tauto.
Qed.

Section MoreOfSubmit.
Context {H : Host} {scripts : Scripts}.
Variable net : Transport.

(** X28.  The first thing [handleQuerySubmit] does is to check the trimmed
    question; that question has no white space at either end, and is the
    text as typed when the text has none. *)
Theorem handleQuerySubmit_trims (page : Page) (tr : list Event) :
  let question := trim (questionInput_value page) in
  (exists rest,
      trace (snd (handleQuerySubmit net (mkWorld page tr)))
      = tr ++ EvCall "validateQuestion" [VString question] :: rest)
  /\ trimmed question
  /\ (trimmed (questionInput_value page) ->
      question = questionInput_value page).
Proof.
  intros question. split; [|split; [apply trim_trimmed | apply trim_id]].
  destruct (valid (validateQuestion question)) eqn:Hv.
  - destruct (handleQuerySubmit_accepted_run net page tr Hv)
      as (log & w' & Hrun & Htr).
    rewrite Hrun. cbn [snd]. rewrite Htr. eexists. reflexivity.
  - unfold handleQuerySubmit, bind at 1, get_ui at 1. cbv beta iota.
    simpl ui. fold question.
    unfold bind at 1, call at 1, emit at 1. cbv beta iota. simpl ui.
    simpl trace. rewrite Hv. cbn [negb]. cbv iota.
    unfold call, emit. simpl. eexists. rewrite <- app_assoc. reflexivity.
Qed.

End MoreOfSubmit.

Section MoreOfSubmit2.
Context {H : Host} {scripts : Scripts}.
Variable net : Transport.

(** X29.  When, in the standard mode, the query succeeds but the assembly
    of the answer markup throws, [handleQuerySubmit] catches it: the results
    area shows an error alert with the message of the exception, the toast
    says "Query failed", and the button is taken out of its loading
    state. *)
Theorem handleQuerySubmit_rendering_fails (page : Page) (tr : list Event)
    (response : Response) (body : value) (e : Exn) :
  let question := trim (questionInput_value page) in
  let includeSources := includeSourcesCheck_checked page in
  let enableEvaluation := enableEvaluationCheck_checked page in
  valid (validateQuestion question) = true ->
  useStreamingCheck_checked page = false ->
  fetch net (query_args question includeSources enableEvaluation)
  = Normal response ->
  ok response = true ->
  non_json (content_type response) = false ->
  response_json response = Normal body ->
  answerMarkup body includeSources enableEvaluation = Throw e ->
  handleQuerySubmit net (mkWorld page tr)
  = (Normal tt,
     mkWorld (set_resultsArea (ErrorAlert (VString (message e))) page)
       (tr ++ [EvCall "validateQuestion" [VString question];
               EvCall "setButtonLoading"
                 [VString "submitQueryBtn"; VBool true;
                  VString "Processing..."];
               EvFetch (query_args question includeSources enableEvaluation);
               EvCall "showToast" [VString "Query failed"; VString "error"];
               EvCall "setButtonLoading"
                 [VString "submitQueryBtn"; VBool false]])).
Proof.
  intros question includeSources enableEvaluation Hv Hs Hf Hok Hct Hj Hm.
  unfold handleQuerySubmit, bind at 1, get_ui at 1. cbv beta iota.
  simpl ui. fold question includeSources enableEvaluation.
  unfold bind at 1, call at 1, emit at 1. cbv beta iota. simpl ui.
  simpl trace. rewrite Hv, Hs. cbn [negb]. cbv iota.
  unfold bind at 1, modify_ui at 1. cbv beta iota. simpl ui. simpl trace.
  unfold bind at 1, call at 1, emit at 1. cbv beta iota. simpl ui.
  simpl trace.
  unfold try_finally, try_catch at 1.
  unfold handleStandardQuery, bind at 1, modify_ui at 1. cbv beta iota.
  unfold bind at 1, query. rewrite request_run.
  fold (query_args question includeSources enableEvaluation).
  rewrite Hf. cbv zeta.
  unfold try_catch at 1. rewrite Hct, json_branch_run, Hj, Hok.
  cbn [negb error truthy data]. cbv iota.
  unfold bind at 1, lift at 1. rewrite Hm. cbn [raised].
  unfold bind, lift, modify_ui, call, emit, sent.
  cbn [ui trace raised message_of].
  rewrite <- !app_assoc. reflexivity.
Qed.

End MoreOfSubmit2.

Lemma last_cons_default {A} (x : A) (l : list A) (d d' : A) :
  last (x :: l) d = last (x :: l) d'.
Proof.
  revert x. induction l as [|y l IH]; intros x; [reflexivity|].
  exact (IH y).
Qed.

(** X30.  After any series of changes of the streaming box, the "include
    sources" box is disabled exactly when streaming was last set on, and it
    is checked only if it was checked before and streaming was never set on
    in the series: setting streaming off again does not bring the check
    back. *)
Theorem set_streaming_each_outcome (bs : list bool) :
  forall (form : QueryForm) (tr : list Event),
  exists form',
    set_streaming_each bs (mkWorld form tr) = (Normal tt, mkWorld form' tr)
    /\ includeSourcesCheck_checked (form_page form')
       = includeSourcesCheck_checked (form_page form) && forallb negb bs
    /\ includeSourcesCheck_disabled form'
       = last bs (includeSourcesCheck_disabled form)
    /\ useStreamingCheck_checked (form_page form')
       = last bs (useStreamingCheck_checked (form_page form)).
Proof.
  induction bs as [|b bs IH]; intros form tr.
  - exists form. simpl. rewrite andb_true_r. auto.
  - cbn [set_streaming_each]. unfold bind at 1.
    assert (Hone : exists form1,
               set_streaming b (mkWorld form tr)
               = (Normal tt, mkWorld form1 tr)
               /\ includeSourcesCheck_checked (form_page form1)
                  = includeSourcesCheck_checked (form_page form) && negb b
               /\ includeSourcesCheck_disabled form1 = b
               /\ useStreamingCheck_checked (form_page form1) = b).
    { unfold set_streaming, useStreamingCheck_onchange, bind, modify_ui,
        get_ui. cbn.
      destruct b; cbn; eexists; (split; [reflexivity|]); cbn;
        rewrite ?andb_false_r, ?andb_true_r; auto. }
    destruct Hone as (form1 & -> & Hc1 & Hd1 & Hs1).
    destruct (IH form1 tr) as (form' & -> & Hc & Hd & Hs).
    exists form'. split; [reflexivity|].
    rewrite Hc, Hd, Hs, Hc1, Hd1, Hs1. cbn [forallb].
    rewrite andb_assoc. repeat split;
      (destruct bs as [|b0 bs];
       [reflexivity | exact (last_cons_default b0 bs _ _)]).
Qed.

(** X21, at a question of three spaces. *)
Lemma handleQuerySubmit_refused_witness :
  handleQuerySubmit (H := RefHost.host) (scripts := sample_scripts)
    (answering hello_stream []) (mkWorld (asking "   " false) [])
  = (Normal tt,
     mkWorld (asking "   " false)
       [EvCall "validateQuestion" [VString []];
        EvCall "showToast"
          [VString "Please enter a question"; VString "error"]]).
Proof.
  exact (handleQuerySubmit_refused (H := RefHost.host)
           (scripts := sample_scripts) (answering hello_stream [])
           (asking "   " false) [] eq_refl).
Defined.

(** X22, with a rendering that throws. *)
Lemma handleQuerySubmit_resets_button_witness :
  fst (handleQuerySubmit (H := RefHost.host) (scripts := failing_scripts)
         (answering not_found []) (mkWorld (asking "hi" false) []))
  = Normal tt.
Proof.
  exact (proj1 (handleQuerySubmit_resets_button (H := RefHost.host)
                  (scripts := failing_scripts) (answering not_found [])
                  (asking "hi" false) [] eq_refl)).
Defined.

(** X29, at a 200 JSON response and a rendering that throws. *)
Lemma handleQuerySubmit_rendering_fails_witness :
  handleQuerySubmit (H := RefHost.host) (scripts := failing_scripts)
    (answering json_utf8 []) (mkWorld (asking " hi " false) [])
  = (Normal tt,
     mkWorld (set_resultsArea (ErrorAlert (VString "data is null"))
                (asking " hi " false))
       [EvCall "validateQuestion" [VString "hi"];
        EvCall "setButtonLoading"
          [VString "submitQueryBtn"; VBool true; VString "Processing..."];
        EvFetch (query_args "hi" true false);
        EvCall "showToast" [VString "Query failed"; VString "error"];
        EvCall "setButtonLoading"
          [VString "submitQueryBtn"; VBool false]]).
Proof.
  apply (handleQuerySubmit_rendering_fails (H := RefHost.host)
           (scripts := failing_scripts) (answering json_utf8 [])
           (asking " hi " false) [] json_utf8
           (VObject [(js "status", VString "healthy")]) broken_rendering);
    vm_compute; reflexivity.
Defined.
